(** * MedCare scoring core: a shallow embedding of [predictor.py]

    The development follows [src/predictor.py]: the [Predictor] class
    ([predict], [get_condition_impact]) and the module-level functions
    [process_uploaded_data] and [store_prediction_results].

    Modelling conventions.
    - A Python [dict] is an insertion-ordered association list with unique
      keys; [d[k] = v] overwrites in place or appends, as CPython does.
    - Python values that travel through the records are [PyVal]: [None],
      integers, floats and strings.  Floats are idealised as exact rationals
      ([Q]); NaN and infinities are not represented, and rounding error of
      binary floating point is ignored.
    - Strings are ASCII; [lower]/[upper] act on the letters a-z / A-Z.
    - Exceptions are values of [Exn] carried by the [result] monad.
    - The fitted scikit-learn objects (the transform and the classifiers)
      are not part of the repository: they are fields of the [Predictor]
      record, as they are attributes of the Python object. *)

From Stdlib Require Import String Ascii List ZArith QArith Qabs Qround Lia Lqa Bool.
From Stdlib Require Import DecimalString.
From Stdlib Require DecimalPos DecimalZ.
Import ListNotations.
Open Scope string_scope.
Open Scope Z_scope.

(** ** Python values *)

Inductive PyVal : Type :=
| VNone : PyVal
| VInt : Z -> PyVal
| VFloat : Q -> PyVal
| VStr : string -> PyVal.

Inductive Exn : Type :=
| ModelsNotLoaded   (* Exception("Models not loaded") *)
| TypeError
| ValueError
| IndexError
| KeyError
| EstimatorError    (* raised inside the fitted transform or a classifier *)
| DbError.          (* raised by the database driver *)

Definition result (A : Type) : Type := (Exn + A)%type.

Definition ok {A : Type} (a : A) : result A := inr a.
Definition raise {A : Type} (e : Exn) : result A := inl e.

Definition bind {A B : Type} (m : result A) (f : A -> result B) : result B :=
  match m with
  | inl e => inl e
  | inr a => f a
  end.

Notation "x <- m ;; k" := (bind m (fun x => k))
  (at level 61, m at next level, right associativity).

(** Numeric reading of a value, [None] when the value is not a number. *)
Definition num_of (v : PyVal) : option Q :=
  match v with
  | VInt z => Some (inject_Z z)
  | VFloat q => Some q
  | _ => None
  end.

Definition Qlt_bool (x y : Q) : bool := negb (Qle_bool y x).

(** [a <= b], [a < b], [a > b], [a >= b] on Python values: numbers compare
    by value, and this model raises [TypeError] as soon as one side is not a
    number (the only comparisons in the source have a numeric literal on one
    side). *)
Definition py_le (a b : PyVal) : result bool :=
  match num_of a, num_of b with
  | Some x, Some y => ok (Qle_bool x y)
  | _, _ => raise TypeError
  end.

Definition py_lt (a b : PyVal) : result bool :=
  match num_of a, num_of b with
  | Some x, Some y => ok (Qlt_bool x y)
  | _, _ => raise TypeError
  end.

Definition py_ge (a b : PyVal) : result bool := py_le b a.
Definition py_gt (a b : PyVal) : result bool := py_lt b a.

(** [v == 1]: true for the integer 1 and for the float 1.0, false for every
    string and for [None]. *)
Definition py_eq_one (v : PyVal) : bool :=
  match v with
  | VInt z => Z.eqb z 1
  | VFloat q => Qeq_bool q 1
  | _ => false
  end.

(** ** Strings *)

Definition lower_ascii (c : ascii) : ascii :=
  let n := N_of_ascii c in
  if (N.leb 65 n && N.leb n 90)%bool then ascii_of_N (n + 32) else c.

Definition upper_ascii (c : ascii) : ascii :=
  let n := N_of_ascii c in
  if (N.leb 97 n && N.leb n 122)%bool then ascii_of_N (n - 32) else c.

Fixpoint lower (s : string) : string :=
  match s with
  | EmptyString => EmptyString
  | String c r => String (lower_ascii c) (lower r)
  end.

Fixpoint upper (s : string) : string :=
  match s with
  | EmptyString => EmptyString
  | String c r => String (upper_ascii c) (upper r)
  end.

(** [s.startswith(p)] *)
Fixpoint startswith (p s : string) : bool :=
  match p, s with
  | EmptyString, _ => true
  | String a p', String b s' => (Ascii.eqb a b && startswith p' s')%bool
  | String _ _, EmptyString => false
  end.

Definition is_digit (c : ascii) : bool :=
  let n := N_of_ascii c in (N.leb 48 n && N.leb n 57)%bool.

Fixpoint all_digits (s : string) : bool :=
  match s with
  | EmptyString => true
  | String c r => (is_digit c && all_digits r)%bool
  end.

(** [s.isdigit()]: non-empty and made of digits only. *)
Definition isdigit (s : string) : bool :=
  match s with
  | EmptyString => false
  | _ => all_digits s
  end.

Fixpoint int_of_digits (acc : Z) (s : string) : Z :=
  match s with
  | EmptyString => acc
  | String c r => int_of_digits (10 * acc + (Z.of_N (N_of_ascii c) - 48)) r
  end.

(** [int(s)] for a string of digits. *)
Definition int_of_string (s : string) : Z := int_of_digits 0 s.

(** ** Dictionaries *)

Section Dict.
Context {V : Type}.

Definition dict : Type := list (string * V).

Fixpoint dict_get (d : dict) (k : string) : option V :=
  match d with
  | [] => None
  | (k', v) :: r => if String.eqb k k' then Some v else dict_get r k
  end.

(** [k in d] *)
Definition dict_mem (d : dict) (k : string) : bool :=
  match dict_get d k with Some _ => true | None => false end.

(** [d[k] = v] *)
Fixpoint dict_set (d : dict) (k : string) (v : V) : dict :=
  match d with
  | [] => [(k, v)]
  | (k', v') :: r =>
      if String.eqb k k' then (k', v) :: r else (k', v') :: dict_set r k v
  end.

(** [d.get(k, dflt)] *)
Definition dict_get_default (d : dict) (k : string) (dflt : V) : V :=
  match dict_get d k with Some v => v | None => dflt end.

(** [{**acc, **d}], also the loop [for k, v in d.items(): acc[k] = v]. *)
Definition dict_update (acc d : dict) : dict :=
  fold_left (fun a kv => dict_set a (fst kv) (snd kv)) d acc.

(** [{f(k): v for k, v in d.items()}] *)
Definition dict_map_keys (f : string -> string) (d : dict) : dict :=
  fold_left (fun a kv => dict_set a (f (fst kv)) (snd kv)) d [].

Definition dict_keys (d : dict) : list string := map fst d.
End Dict.

Arguments dict V : clear implicits.

(** [{k.lower(): v for k, v in d.items()}] *)
Definition lower_keys {V : Type} (d : dict V) : dict V := dict_map_keys lower d.

(** ** Tier policy (process_uploaded_data, lines 186-204) *)

Record TierInfo : Type := mkTier {
  label : string;
  intervention : string;
  cost : Z;
  rate : Q
}.

Definition tier_info (t : Z) : option TierInfo :=
  match t with
  | 1 => Some (mkTier "Low Risk" "Preventive Care" 200 (2 # 100))
  | 2 => Some (mkTier "Low-Moderate Risk" "Enhanced Wellness" 300 (5 # 100))
  | 3 => Some (mkTier "Moderate Risk" "Care Coordination" 600 (15 # 100))
  | 4 => Some (mkTier "High Risk" "Case Management" 800 (25 # 100))
  | 5 => Some (mkTier "Critical Risk" "Intensive Management" 1000 (35 # 100))
  | _ => None
  end.

(** [tier_info[t]]: a missing key raises [KeyError]. *)
Definition tier_info_at (t : Z) : result TierInfo :=
  match tier_info t with Some i => ok i | None => raise KeyError end.

Definition avg_preventable_cost : Z := 10000.

(** The [if]/[elif] chain on [primary_risk_score]. *)
Definition risk_tier_of (p : Q) : Z :=
  if Qle_bool (85 # 100) p then 5
  else if Qle_bool (65 # 100) p then 4
  else if Qle_bool (40 # 100) p then 3
  else if Qle_bool (15 # 100) p then 2
  else 1.

(** [x or 0] for [x] the result of [dict.get] on a dictionary of scores:
    [None] and a zero score are falsy and give the integer 0. *)
Definition or_zero (x : option Q) : PyVal :=
  match x with
  | None => VInt 0
  | Some q => if Qeq_bool q 0 then VInt 0 else VFloat q
  end.

(** Numeric value of a score that is known to be a number. *)
Definition score_value (v : PyVal) : Q :=
  match num_of v with Some q => q | None => 0%Q end.

(** [predictions.get(k)]: [None] when the key is missing. *)
Definition get_score (predictions : dict Q) (k : string) : PyVal :=
  match dict_get predictions k with Some q => VFloat q | None => VNone end.

(** ** The predictor object *)

(** A fitted classifier, reduced to what [predictor.py] reads from it:
    the optional attributes probed with [hasattr] and the positive-class
    probability [predict_proba(X)[0, 1]] of the single scaled row. *)
#[warnings="-register-all"]
Inductive Estimator : Type :=
  mkEstimator {
    feature_importances_ : option (list Q);
    coef_ : option (list (list Q));
    base_estimator : option Estimator;
    predict_proba : list Q -> result Q
  }.

Record Predictor : Type := mkPredictor {
  pipeline : option (list PyVal -> result (list Q));
  models : option (dict Estimator);
  feature_columns : list string
}.

(** [not self.pipeline or not self.models] *)
Definition not_loaded (P : Predictor) : bool :=
  match pipeline P, models P with
  | Some _, Some (_ :: _) => false
  | _, _ => true
  end.

Definition loaded_parts (P : Predictor)
  : result ((list PyVal -> result (list Q)) * dict Estimator) :=
  match pipeline P, models P with
  | Some t, Some (m :: ms) => ok (t, m :: ms)
  | _, _ => raise ModelsNotLoaded
  end.

(** *** Predictor.predict (lines 26-47) *)

(** Lines 31-36: lower-case the keys, then default every missing feature. *)
Definition fill_missing (cols : list string) (temp_input : dict PyVal) : dict PyVal :=
  fold_left
    (fun t feature => if dict_mem t feature then t else dict_set t feature (VInt 0))
    cols temp_input.

Definition normalize (cols : list string) (input_data : dict PyVal) : dict PyVal :=
  fill_missing cols (lower_keys input_data).

(** [input_df[self.feature_columns]]: the row restricted to the required
    columns, in their order; pandas raises [KeyError] on a missing column. *)
Fixpoint select_columns (cols : list string) (row : dict PyVal) : result (list PyVal) :=
  match cols with
  | [] => ok []
  | c :: r =>
      match dict_get row c with
      | None => raise KeyError
      | Some v => vs <- select_columns r row ;; ok (v :: vs)
      end
  end.

(** The loop over [self.models.items()]. *)
Fixpoint score_models (ms : dict Estimator) (X_scaled : list Q) (predictions : dict Q)
  : result (dict Q) :=
  match ms with
  | [] => ok predictions
  | (model_name, model) :: r =>
      prob <- predict_proba model X_scaled ;;
      score_models r X_scaled (dict_set predictions (model_name ++ "_score") prob)
  end.

Definition predict (P : Predictor) (input_data : dict PyVal) : result (dict Q) :=
  parts <- loaded_parts P ;;
  let temp_input := normalize (feature_columns P) input_data in
  X_input <- select_columns (feature_columns P) temp_input ;;
  X_scaled <- fst parts X_input ;;
  score_models (snd parts) X_scaled [].

(** *** Predictor.get_condition_impact (lines 49-131) *)

Definition condition_fields : list string :=
  ["sp_chf"; "sp_diabetes"; "sp_chrnkidn"; "sp_cncr"; "sp_copd";
   "sp_depressn"; "sp_ischmcht"; "sp_strketia"; "sp_alzhdmta";
   "sp_osteoprs"; "sp_ra_oa"].

Definition condition_name_map : dict string :=
  [("sp_chf", "Heart Failure");
   ("sp_diabetes", "Diabetes");
   ("sp_chrnkidn", "Kidney Disease");
   ("sp_cncr", "Cancer");
   ("sp_copd", "COPD");
   ("sp_depressn", "Depression");
   ("sp_ischmcht", "Ischemic Heart");
   ("sp_strketia", "Stroke/TIA");
   ("sp_alzhdmta", "Dementia");
   ("sp_osteoprs", "Osteoporosis");
   ("sp_ra_oa", "Arthritis")].

(** [condition_name_map.get(condition, condition)] *)
Definition clean_name (condition : string) : string :=
  dict_get_default condition_name_map condition condition.

(** [patient_data.get(cond) == 1] *)
Definition has_condition (patient_data : dict PyVal) (cond : string) : bool :=
  match dict_get patient_data cond with
  | Some v => py_eq_one v
  | None => false
  end.

Definition patient_conditions_of (patient_data : dict PyVal) : list string :=
  filter (has_condition patient_data) condition_fields.

(** [np.abs(est.coef_[0])] *)
Definition abs_first_row (coef : list (list Q)) : result (list Q) :=
  match coef with
  | [] => raise IndexError
  | row :: _ => ok (map Qabs row)
  end.

(** The two attribute checks applied to the model and, failing both, to its
    [base_estimator]: [feature_importances_] first, then [coef_]. *)
Definition direct_importances (m : Estimator) : option (result (list Q)) :=
  match feature_importances_ m with
  | Some fi => Some (ok fi)
  | None =>
      match coef_ m with
      | Some c => Some (abs_first_row c)
      | None => None
      end
  end.

(** Lines 94-106.  [ok None] is [importances = None]. *)
Definition resolve_importances (model : Estimator) : result (option (list Q)) :=
  match direct_importances model with
  | Some r => v <- r ;; ok (Some v)
  | None =>
      match base_estimator model with
      | Some base =>
          match direct_importances base with
          | Some r => v <- r ;; ok (Some v)
          | None => ok None
          end
      | None => ok None
      end
  end.

(** Round half to even at an integer. *)
Definition round_half_even (x : Q) : Z :=
  let f := Qfloor x in
  let r := (x - inject_Z f)%Q in
  if Qlt_bool r (1 # 2) then f
  else if Qlt_bool (1 # 2) r then f + 1
  else if Z.even f then f else f + 1.

(** [round(x, 2)] *)
Definition round2 (x : Q) : Q := Qmake (round_half_even (x * 100)%Q) 100.

(** [dict(zip(self.feature_columns, importances))] *)
Definition importance_dict_of (cols : list string) (importances : list Q) : dict Q :=
  dict_update [] (combine cols importances).

Definition Qsum (l : list Q) : Q := fold_left Qplus l 0%Q.

(** Lines 114-120. *)
Definition weighted_impacts (importance_dict : dict Q) (total : Q)
    (patient_conditions : list string) : dict Q :=
  fold_left
    (fun impacts condition =>
       let condition_importance := dict_get_default importance_dict condition 0%Q in
       let relative_impact := ((condition_importance / total) * 100)%Q in
       if Qlt_bool 0 relative_impact
       then dict_set impacts (clean_name condition) (round2 relative_impact)
       else impacts)
    patient_conditions [].

(** Lines 108-120. *)
Definition impacts_from_weights (cols : list string) (importances : option (list Q))
    (patient_conditions : list string) : dict Q :=
  match importances, cols with
  | Some imp, _ :: _ =>
      let importance_dict := importance_dict_of cols imp in
      let total_condition_importance :=
        Qsum (map (fun cond => dict_get_default importance_dict cond 0%Q) patient_conditions) in
      if Qlt_bool 0 total_condition_importance
      then weighted_impacts importance_dict total_condition_importance patient_conditions
      else []
  | _, _ => []
  end.

(** Lines 125-128. *)
Definition fallback_impacts (patient_conditions : list string) : dict Q :=
  let num_conditions := Z.of_nat (length patient_conditions) in
  fold_left
    (fun impacts condition =>
       dict_set impacts (clean_name condition) (round2 (100 / inject_Z num_conditions)%Q))
    patient_conditions [].

(** Lines 122-128: the fallback applies when [impacts] is still empty. *)
Definition with_fallback (impacts : dict Q) (patient_conditions : list string) : dict Q :=
  match impacts, patient_conditions with
  | [], _ :: _ => fallback_impacts patient_conditions
  | _, _ => impacts
  end.

Definition get_condition_impact (P : Predictor) (patient_data : dict PyVal)
  : result (dict Q) :=
  if not_loaded P then ok []
  else
    _base_predictions <- predict P patient_data ;;
    let patient_conditions := patient_conditions_of patient_data in
    match patient_conditions with
    | [] => ok []
    | _ :: _ =>
        match dict_get (match models P with Some ms => ms | None => [] end) "mortality" with
        | None => ok []
        | Some model =>
            importances <- resolve_importances model ;;
            let impacts :=
              impacts_from_weights (feature_columns P) importances patient_conditions in
            ok (with_fallback impacts patient_conditions)
        end
    end.

(** ** The scoring pipeline: process_uploaded_data (lines 152-222) *)

Definition condition_fields_upper : list string :=
  ["SP_CHF"; "SP_DIABETES"; "SP_CHRNKIDN"; "SP_CNCR"; "SP_COPD";
   "SP_DEPRESSN"; "SP_ISCHMCHT"; "SP_STRKETIA"; "SP_ALZHDMTA";
   "SP_OSTEOPRS"; "SP_RA_OA"].

Definition high_impact_list : list string :=
  ["SP_CHF"; "SP_CHRNKIDN"; "SP_CNCR"; "SP_COPD"].

(** [key.upper().startswith('SP_')] *)
Definition is_condition_key (key : string) : bool := startswith "SP_" (upper key).

Definition flag (b : bool) : PyVal := VInt (if b then 1 else 0).

(** [a + b] as used by [sum]. *)
Definition py_add (a b : PyVal) : result PyVal :=
  match a, b with
  | VInt x, VInt y => ok (VInt (x + y))
  | _, _ =>
      match num_of a, num_of b with
      | Some x, Some y => ok (VFloat (x + y))
      | _, _ => raise TypeError
      end
  end.

Fixpoint py_sum (acc : PyVal) (l : list PyVal) : result PyVal :=
  match l with
  | [] => ok acc
  | v :: r => s <- py_add acc v ;; py_sum s r
  end.

(** [lo <= age < hi]: the second comparison runs only when the first holds. *)
Definition py_between (lo age hi : PyVal) : result bool :=
  b <- py_le lo age ;;
  if b then py_lt age hi else ok false.

(** Lines 165-168, as a function of the value read for ['age']. *)
Definition age_bands (age : PyVal) : result (PyVal * PyVal * PyVal) :=
  a1 <- py_between (VInt 65) age (VInt 75) ;;
  a2 <- py_between (VInt 75) age (VInt 85) ;;
  a3 <- py_ge age (VInt 85) ;;
  ok (flag a1, flag a2, flag a3).

(** Lines 161-163. *)
Definition set_condition_flags (form_data processed_data : dict PyVal) : dict PyVal :=
  fold_left
    (fun pd field => dict_set pd field (flag (dict_mem form_data field)))
    condition_fields_upper processed_data.

Section Pipeline.

(** Python's [float(s)] on a string: the parsed number, or [None] for
    [ValueError].  The grammar of float literals is the interpreter's. *)
Variable parse_float : string -> option Q.

(** Python's [str(x)] for a float [x]. *)
Variable str_of_float : Q -> string.

(** Lines 156-159: the value stored for a key that is passed through. *)
Definition coerce (value : PyVal) : PyVal :=
  match value with
  | VStr s =>
      if isdigit s then VInt (int_of_string s)
      else match parse_float s with
           | Some q => VFloat q
           | None => VStr s
           end
  | VInt z => VFloat (inject_Z z)
  | VFloat q => VFloat q
  | VNone => VNone
  end.

(** Lines 153-159. *)
Definition passthrough (form_data : dict PyVal) : dict PyVal :=
  fold_left
    (fun pd kv =>
       if is_condition_key (fst kv) then pd
       else dict_set pd (fst kv) (coerce (snd kv)))
    form_data [].

(** Lines 153-174: the enriched record [processed_data]. *)
Definition build_features (form_data : dict PyVal) : result (dict PyVal) :=
  let pd := passthrough form_data in
  let pd := set_condition_flags form_data pd in
  let age := dict_get_default pd "age" (VInt 0) in
  bands <- age_bands age ;;
  let pd := dict_set pd "age_65_74" (fst (fst bands)) in
  let pd := dict_set pd "age_75_84" (snd (fst bands)) in
  let pd := dict_set pd "age_85_plus" (snd bands) in
  hic <- py_sum (VInt 0) (map (fun cond => dict_get_default pd cond (VInt 0)) high_impact_list) ;;
  let pd := dict_set pd "high_impact_conditions" hic in
  ph <- py_gt (dict_get_default pd "inpatient_admissions" (VInt 0)) (VInt 0) ;;
  let pd := dict_set pd "prior_hospitalization" (flag ph) in
  fe <- py_gt (dict_get_default pd "outpatient_visits" (VInt 0)) (VInt 10) ;;
  let pd := dict_set pd "frequent_ed_user" (flag fe) in
  hc <- py_gt (dict_get_default pd "total_medicare_costs" (VInt 0)) (VInt 20000) ;;
  ok (dict_set pd "high_cost_patient" (flag hc)).

(** Lines 179-184. *)
Definition db_predictions_of (predictions : dict Q) : dict PyVal :=
  [("hospitalization_30d_score", get_score predictions "30d_hospitalization_score");
   ("hospitalization_60d_score", get_score predictions "60d_hospitalization_score");
   ("hospitalization_90d_score", get_score predictions "90d_hospitalization_score");
   ("mortality_score", get_score predictions "mortality_score")].

(** Line 186: [db_predictions.get('hospitalization_30d_score') or 0]. *)
Definition primary_risk_score_of (predictions : dict Q) : PyVal :=
  or_zero (dict_get predictions "30d_hospitalization_score").

(** Lines 179-219: tier, derived costs and the merged result record. *)
Definition assemble (processed_data : dict PyVal) (predictions : dict Q)
  : result (dict PyVal) :=
  let db_predictions := db_predictions_of predictions in
  let primary_risk_score := primary_risk_score_of predictions in
  let p := score_value primary_risk_score in
  let risk_tier := risk_tier_of p in
  info <- tier_info_at risk_tier ;;
  let prevention_rate := rate info in
  let prevented_hospitalizations := (p * prevention_rate)%Q in
  let cost_savings := (prevented_hospitalizations * inject_Z avg_preventable_cost)%Q in
  ok (dict_update (dict_update (dict_update [] processed_data) db_predictions)
        [("risk_tier", VInt risk_tier);
         ("risk_tier_label", VStr (label info));
         ("care_intervention", VStr (intervention info));
         ("annual_intervention_cost", VInt (cost info));
         ("prevented_hospitalizations", VFloat prevented_hospitalizations);
         ("cost_savings", VFloat cost_savings);
         ("risk_30d_hospitalization", primary_risk_score);
         ("risk_60d_hospitalization",
           dict_get_default db_predictions "hospitalization_60d_score" VNone);
         ("risk_90d_hospitalization",
           dict_get_default db_predictions "hospitalization_90d_score" VNone);
         ("mortality_risk", dict_get_default db_predictions "mortality_score" VNone)]).

(** Lines 153-219: everything [process_uploaded_data] computes before it
    calls [store_prediction_results]. *)
Definition score (P : Predictor) (form_data : dict PyVal) : result (dict PyVal) :=
  processed_data <- build_features form_data ;;
  predictions <- predict P (lower_keys processed_data) ;;
  assemble processed_data predictions.

(** *** store_prediction_results (lines 224-275)

    The database is the two tables the function touches, each a list of
    rows (column name to value), and a flag telling whether a connection
    can be opened.  A statement that the driver would reject for reasons
    outside this model (types, constraints) is not represented. *)

Record Db : Type := mkDb {
  db_up : bool;
  patients : list (dict PyVal);
  patient_analysis : list (dict PyVal)
}.

(** [str(v)] *)
Definition py_str (v : PyVal) : string :=
  match v with
  | VNone => "None"
  | VInt z => NilZero.string_of_int (Z.to_int z)
  | VFloat q => str_of_float q
  | VStr s => s
  end.

(** Truth value of a Python object. *)
Definition truthy (v : PyVal) : bool :=
  match v with
  | VNone => false
  | VInt z => negb (Z.eqb z 0)
  | VFloat q => negb (Qeq_bool q 0)
  | VStr s => negb (String.eqb s "")
  end.

(** [WHERE desynpuf_id = %s]: a NULL never matches. *)
Definition row_matches (patient_id : string) (row : dict PyVal) : bool :=
  match dict_get row "desynpuf_id" with
  | None | Some VNone => false
  | Some v => String.eqb (py_str v) patient_id
  end.

Definition sql_update (patient_id : string) (assignments : dict PyVal)
    (table : list (dict PyVal)) : list (dict PyVal) :=
  map (fun row => if row_matches patient_id row then dict_update row assignments else row)
      table.

Definition columns : list string :=
  ["desynpuf_id"; "age"; "gender_male"; "race_white"; "race_black";
   "chronic_condition_count"; "high_impact_conditions"; "sp_chf"; "sp_diabetes";
   "sp_chrnkidn"; "sp_cncr"; "sp_copd"; "sp_depressn"; "sp_ischmcht";
   "sp_strketia"; "sp_alzhdmta"; "sp_osteoprs"; "sp_ra_oa";
   "inpatient_admissions"; "inpatient_days"; "outpatient_visits";
   "total_medicare_costs"; "prior_hospitalization"; "risk_30d_hospitalization";
   "risk_60d_hospitalization"; "risk_90d_hospitalization"; "mortality_risk";
   "hospitalization_30d_score"; "hospitalization_60d_score";
   "hospitalization_90d_score"; "mortality_score"; "risk_tier"; "risk_tier_label";
   "care_intervention"; "annual_intervention_cost"; "cost_savings";
   "prevented_hospitalizations"].

(** [[(col, db_data.get(col)) for col in cols]] *)
Definition values_for (db_data : dict PyVal) (cols : list string) : dict PyVal :=
  map (fun col => (col, dict_get_default db_data col VNone)) cols.

(** Lines 237-242: the upsert of the patient's name. *)
Definition upsert_patient (patient_id : string) (patient_name : PyVal)
    (table : list (dict PyVal)) : list (dict PyVal) :=
  if existsb (row_matches patient_id) table
  then sql_update patient_id [("name", patient_name)] table
  else (table ++ [[("desynpuf_id", VStr patient_id); ("name", patient_name)]])%list.

(** Lines 256-267: the upsert of the analysis row. *)
Definition upsert_analysis (patient_id : string) (db_data : dict PyVal)
    (table : list (dict PyVal)) : list (dict PyVal) :=
  if existsb (row_matches patient_id) table
  then
    let update_cols := filter (fun col => negb (String.eqb col "desynpuf_id")) columns in
    sql_update patient_id (values_for db_data update_cols) table
  else (table ++ [values_for db_data columns])%list.

(** Computations that read and write the database and may raise. *)
Definition io (A : Type) : Type := Db -> Db * result A.




Definition store_prediction_results (all_data : dict PyVal) : io unit :=
  fun db =>
    if negb (db_up db) then (db, raise DbError)
    else
      let db_data := lower_keys all_data in
      let patient_id := py_str (dict_get_default db_data "desynpuf_id" VNone) in
      let patient_name := dict_get_default db_data "name" VNone in
      let patients' :=
        if (truthy patient_name && negb (String.eqb patient_id ""))%bool
        then upsert_patient patient_id patient_name (patients db)
        else patients db in
      let analysis' := upsert_analysis patient_id db_data (patient_analysis db) in
      (mkDb (db_up db) patients' analysis', ok tt).


End Pipeline.

(** ** Attribution: named quantities and the source priority relation *)

(** Importance of a condition under the weights of the mortality model
    (line 115). *)
Definition importance_of (cols : list string) (imp : list Q) (c : string) : Q :=
  dict_get_default (importance_dict_of cols imp) c 0%Q.

(** Line 111. *)
Definition total_condition_importance (cols : list string) (imp : list Q)
    (patient_conditions : list string) : Q :=
  Qsum (map (importance_of cols imp) patient_conditions).

(** Relative impact of a condition, before rounding (line 117). *)
Definition relative_impact_of (importance_dict : dict Q) (total : Q) (c : string) : Q :=
  (dict_get_default importance_dict c 0 / total * 100)%Q.

(** The priority order of the specification, as relations between a
    classifier and the outcome of the resolution.  [direct_source] is the
    pair of checks made on one estimator: (a) its [feature_importances_];
    else (b) the absolute values of row 0 of its [coef_] (reading row 0 of an
    empty [coef_] raises).  [importance_source] applies them to the
    classifier and, when it has neither attribute, (c) to its
    [base_estimator]; otherwise nothing is resolved. *)
Inductive direct_source (m : Estimator) : result (list Q) -> Prop :=
| src_importances fi :
    feature_importances_ m = Some fi ->
    direct_source m (ok fi)
| src_coef row rest :
    feature_importances_ m = None ->
    coef_ m = Some (row :: rest) ->
    direct_source m (ok (map Qabs row))
| src_coef_empty :
    feature_importances_ m = None ->
    coef_ m = Some [] ->
    direct_source m (raise IndexError).

Inductive importance_source (m : Estimator) : result (option (list Q)) -> Prop :=
| src_own r :
    direct_source m r ->
    importance_source m (v <- r ;; ok (Some v))
| src_base base r :
    feature_importances_ m = None ->
    coef_ m = None ->
    base_estimator m = Some base ->
    direct_source base r ->
    importance_source m (v <- r ;; ok (Some v))
| src_base_none base :
    feature_importances_ m = None ->
    coef_ m = None ->
    base_estimator m = Some base ->
    feature_importances_ base = None ->
    coef_ base = None ->
    importance_source m (ok None)
| src_none :
    feature_importances_ m = None ->
    coef_ m = None ->
    base_estimator m = None ->
    importance_source m (ok None).

(** ** Fixtures: a loaded predictor over four columns, forms and records *)

Definition fixture_transform : list PyVal -> result (list Q) :=
  fun X => ok (map score_value X).

Definition fixture_estimator (fi : option (list Q)) : Estimator :=
  mkEstimator fi None None (fun _ => ok (1 # 2)%Q).

Definition fixture_predictor (fi : option (list Q)) : Predictor :=
  mkPredictor (Some fixture_transform)
    (Some [("30d_hospitalization", fixture_estimator None);
           ("mortality", fixture_estimator fi)])
    ["age"; "sp_chf"; "sp_diabetes"; "sp_copd"].

Definition fixture_two_conditions : dict PyVal :=
  [("age", VInt 70); ("sp_chf", VInt 1); ("sp_diabetes", VInt 1)].

Definition fixture_three_conditions : dict PyVal :=
  [("age", VInt 70); ("sp_chf", VInt 1); ("sp_diabetes", VInt 1); ("sp_copd", VInt 1)].

Definition fixture_mixed_record : dict PyVal :=
  [("SP_CHF", VInt 1); ("sp_diabetes", VInt 1); ("sp_copd", VStr "1"); ("sp_cncr", VInt 2)].

Definition fixture_parse_float : string -> option Q := fun _ => None.
Definition fixture_str_of_float : Q -> string := fun _ => "0.0".
Definition fixture_db : Db := mkDb true [] [].


(** ** data.py: the patient tables *)

(** [DELETE FROM table WHERE DESYNPUF_ID = %s] *)
Definition sql_delete (str_of_float : Q -> string) (patient_id : string)
    (table : list (dict PyVal)) : list (dict PyVal) :=
  filter (fun row => negb (row_matches str_of_float patient_id row)) table.

(** delete_patient (lines 154-173): both deletes, then the commit; any
    exception is caught and reported as [False], and nothing has been
    committed then. *)
Definition delete_patient (str_of_float : Q -> string) (patient_id : string) (db : Db)
  : Db * bool :=
  if negb (db_up db) then (db, false)
  else (mkDb (db_up db)
          (sql_delete str_of_float patient_id (patients db))
          (sql_delete str_of_float patient_id (patient_analysis db)),
        true).

(** [= 1] on a numeric column; a NULL compares as unknown and takes the
    [ELSE] branch. *)
Definition sql_is_one (v : PyVal) : bool := py_eq_one v.

(** The select list of get_patient_details for one joined row: [pa.*],
    [p.name], and the two [CASE] columns. *)
Definition details_row (pa : dict PyVal) (name : PyVal) : dict PyVal :=
  dict_update pa
    [("name", name);
     ("gender", VStr (if sql_is_one (dict_get_default pa "gender_male" VNone)
                      then "Male" else "Female"));
     ("race", VStr (if sql_is_one (dict_get_default pa "race_white" VNone) then "White"
                    else if sql_is_one (dict_get_default pa "race_black" VNone) then "Black"
                    else "Other"))].

(** [patient_analysis pa LEFT JOIN patients p ON pa.DESYNPUF_ID =
    p.DESYNPUF_ID WHERE pa.DESYNPUF_ID = %s], rows in table order. *)
Definition details_join (str_of_float : Q -> string) (patient_id : string) (db : Db)
  : list (dict PyVal) :=
  flat_map
    (fun pa =>
       match filter (row_matches str_of_float patient_id) (patients db) with
       | [] => [details_row pa VNone]
       | ps => map (fun p => details_row pa (dict_get_default p "name" VNone)) ps
       end)
    (filter (row_matches str_of_float patient_id) (patient_analysis db)).

(** get_patient_details (lines 175-193), through execute_query (lines
    31-45): [result[0] if result else None]; a connection failure is
    re-raised. *)
Definition get_patient_details (str_of_float : Q -> string) (patient_id : string) (db : Db)
  : result (option (dict PyVal)) :=
  if negb (db_up db) then raise DbError
  else ok (hd_error (details_join str_of_float patient_id db)).


(** ** data.py: get_patient_list (lines 47-136) *)

Definition nl : string := String (ascii_of_nat 10) EmptyString.

Definition base_query_head : string :=
  "" ++ nl ++
  "    SELECT " ++ nl ++
  "        pa.DESYNPUF_ID as id," ++ nl ++
  "        COALESCE(p.name, 'Patient ' || SUBSTRING(pa.DESYNPUF_ID FROM 1 FOR 8)) as name," ++ nl ++
  "        pa.age," ++ nl ++
  "        pa.risk_tier," ++ nl ++
  "        CONCAT(" ++ nl ++
  "            CASE WHEN pa.SP_CHF = 1 THEN 'CHF, ' ELSE '' END," ++ nl ++
  "            CASE WHEN pa.SP_DIABETES = 1 THEN 'Diabetes, ' ELSE '' END," ++ nl ++
  "            CASE WHEN pa.SP_COPD = 1 THEN 'COPD, ' ELSE '' END," ++ nl ++
  "            CASE WHEN pa.SP_ISCHMCHT = 1 THEN 'Ischemic Heart, ' ELSE '' END," ++ nl ++
  "            CASE WHEN pa.SP_DEPRESSN = 1 THEN 'Depression, ' ELSE '' END" ++ nl ++
  "        ) as conditions" ++ nl ++
  "    FROM patient_analysis pa" ++ nl ++
  "    LEFT JOIN patients p ON pa.DESYNPUF_ID = p.DESYNPUF_ID" ++ nl ++
  "    WHERE 1=1" ++ nl ++
  "    ".

Definition count_query_head : string :=
  "" ++ nl ++
  "    SELECT COUNT(" ++ "*) " ++ nl ++
  "    FROM patient_analysis pa" ++ nl ++
  "    LEFT JOIN patients p ON pa.DESYNPUF_ID = p.DESYNPUF_ID" ++ nl ++
  "    WHERE 1=1" ++ nl ++
  "    ".

Definition search_clause : string :=
  " AND (pa.DESYNPUF_ID ILIKE %s OR CAST(pa.age AS TEXT) ILIKE %s OR p.name ILIKE %s)".

Definition risk_tier_clause : string := " AND pa.risk_tier = %s".

Definition order_limit_clause : string :=
  " ORDER BY pa.risk_tier DESC, pa.hospitalization_30d_score DESC LIMIT %s OFFSET %s".

(** Truth value of a [str]. *)
Definition nonempty (s : string) : bool := negb (String.eqb s "").

(** The [if]/[elif] chain on [age_range]; an unknown range adds nothing. *)
Definition age_range_clause (age_range : string) : string :=
  if nonempty age_range then
    if String.eqb age_range "18-30" then " AND pa.age BETWEEN 18 AND 30"
    else if String.eqb age_range "31-50" then " AND pa.age BETWEEN 31 AND 50"
    else if String.eqb age_range "51-70" then " AND pa.age BETWEEN 51 AND 70"
    else if String.eqb age_range "70+" then " AND pa.age >= 70"
    else ""
  else "".

(** The f-string that wraps [search] between two percent signs. *)
Definition like_pattern (search : string) : PyVal := VStr ("%" ++ search ++ "%").

(** Lines 49-88: the text of the page query and its parameters. *)
Definition patient_list_query (search risk_tier age_range : string) (limit offset : Z)
  : string * list PyVal :=
  let base_query := base_query_head in
  let params := [] in
  let base_query := if nonempty search then base_query ++ search_clause else base_query in
  let params :=
    if nonempty search
    then (params ++ [like_pattern search; like_pattern search; like_pattern search])%list
    else params in
  let base_query :=
    if (nonempty risk_tier && negb (String.eqb risk_tier ""))%bool
    then base_query ++ risk_tier_clause else base_query in
  let params :=
    if (nonempty risk_tier && negb (String.eqb risk_tier ""))%bool
    then (params ++ [VStr risk_tier])%list else params in
  let base_query := base_query ++ age_range_clause age_range in
  let base_query := base_query ++ order_limit_clause in
  (base_query, (params ++ [VInt limit; VInt offset])%list).

(** Lines 90-114: the text of the count query and its parameters. *)
Definition patient_count_query (search risk_tier age_range : string)
  : string * list PyVal :=
  let count_query := count_query_head in
  let count_params := [] in
  let count_query := if nonempty search then count_query ++ search_clause else count_query in
  let count_params :=
    if nonempty search
    then (count_params ++ [like_pattern search; like_pattern search; like_pattern search])%list
    else count_params in
  let count_query :=
    if (nonempty risk_tier && negb (String.eqb risk_tier ""))%bool
    then count_query ++ risk_tier_clause else count_query in
  let count_params :=
    if (nonempty risk_tier && negb (String.eqb risk_tier ""))%bool
    then (count_params ++ [VStr risk_tier])%list else count_params in
  let count_query := count_query ++ age_range_clause age_range in
  (count_query, count_params).

(** Number of placeholders (a percent sign followed by [s]) of a query
    text. *)
Fixpoint count_placeholders (s : string) : nat :=
  match s with
  | EmptyString => O
  | String c r =>
      ((if (Ascii.eqb c "%"%char && startswith "s" r)%bool then 1 else 0)
       + count_placeholders r)%nat
  end.

(** [sub in s] *)
Fixpoint contains (sub s : string) : bool :=
  match s with
  | EmptyString => startswith sub EmptyString
  | String _ r => (startswith sub s || contains sub r)%bool
  end.

Definition mem_char (c : ascii) (chars : string) : bool :=
  contains (String c EmptyString) chars.

(** [s.rstrip(chars)] *)
Fixpoint rstrip (chars s : string) : string :=
  match s with
  | EmptyString => EmptyString
  | String c r =>
      match rstrip chars r with
      | EmptyString => if mem_char c chars then EmptyString else String c EmptyString
      | r' => String c r'
      end
  end.

(** A row of the page query: the five selected columns; [conditions] is a
    text column, [None] when NULL. *)
Record PatientRow : Type := mkPatientRow {
  row_id : PyVal;
  row_name : PyVal;
  row_age : PyVal;
  row_risk_tier : PyVal;
  row_conditions : option string
}.

(** Line 123. *)
Definition risk_tier_str_of (str_of_float : Q -> string) (row : PatientRow) : string :=
  if truthy (row_risk_tier row) then py_str str_of_float (row_risk_tier row) else "1".

(** Line 124. *)
Definition risk_tier_num_of (str_of_float : Q -> string) (row : PatientRow) : Z :=
  let risk_tier_str := risk_tier_str_of str_of_float row in
  if isdigit risk_tier_str then int_of_string risk_tier_str else 1.

(** Line 133. *)
Definition conditions_display (row : PatientRow) : string :=
  match row_conditions row with
  | Some s => if nonempty s then rstrip ", " s else "No conditions"
  | None => "No conditions"
  end.

(** Lines 126-134: one formatted entry. *)
Definition format_patient_row (str_of_float : Q -> string) (row : PatientRow) : dict PyVal :=
  [("id", row_id row);
   ("full_id", row_id row);
   ("name", row_name row);
   ("age", row_age row);
   ("risk_tier", VInt (risk_tier_num_of str_of_float row));
   ("risk_tier_display", VStr ("Tier " ++ risk_tier_str_of str_of_float row));
   ("conditions", VStr (conditions_display row))].

(** The [CONCAT] of the five [CASE] columns of the page query (lines 55-61),
    as a function of which of the five flags equal 1. *)
Definition conditions_concat (chf diabetes copd ischmcht depressn : bool) : string :=
  (if chf then "CHF, " else "") ++
  (if diabetes then "Diabetes, " else "") ++
  (if copd then "COPD, " else "") ++
  (if ischmcht then "Ischemic Heart, " else "") ++
  (if depressn then "Depression, " else "").

(** [sep.join(parts)] *)
Fixpoint join_with (sep : string) (parts : list string) : string :=
  match parts with
  | [] => ""
  | [p] => p
  | p :: r => p ++ sep ++ join_with sep r
  end.

(** ** app.py: index (lines 15-54) and api_dashboard_data (lines 109-159) *)

Definition index_limit : Z := 10.

(** Line 26. *)
Definition index_offset (page : Z) : Z := (page - 1) * index_limit.

(** Line 37: [(total_records + limit - 1) // limit if total_records > 0 else 1]. *)
Definition total_pages_of (total_records : Z) : Z :=
  if 0 <? total_records then (total_records + index_limit - 1) / index_limit else 1.






(** ** Names used to state what process_uploaded_data keeps and overrides *)

(** [processed_data.get(k, 0)] once the passthrough loop and the condition
    flags are done (the reads of lines 165 and 172-174). *)
Definition read_field (parse_float : string -> option Q) (form_data : dict PyVal)
    (k : string) : PyVal :=
  dict_get_default (set_condition_flags form_data (passthrough parse_float form_data))
    k (VInt 0).

(** Keys written by lines 166-174. *)
Definition derived_keys : list string :=
  ["age_65_74"; "age_75_84"; "age_85_plus"; "high_impact_conditions";
   "prior_hospitalization"; "frequent_ed_user"; "high_cost_patient"].

(** Keys written by lines 179-219 on top of the enriched record. *)
Definition computed_keys : list string :=
  ["hospitalization_30d_score"; "hospitalization_60d_score";
   "hospitalization_90d_score"; "mortality_score"; "risk_tier"; "risk_tier_label";
   "care_intervention"; "annual_intervention_cost"; "prevented_hospitalizations";
   "cost_savings"; "risk_30d_hospitalization"; "risk_60d_hospitalization";
   "risk_90d_hospitalization"; "mortality_risk"].

(** Number of members of the form among a list of keys. *)
Definition count_present (form_data : dict PyVal) (keys : list string) : Z :=
  Z.of_nat (length (filter (dict_mem form_data) keys)).




(** Fixtures: a filled form, the record and result built from it, and a
    form with an empty age box. *)
Definition fixture_form_full : dict PyVal :=
  [("desynpuf_id", VStr "P1"); ("age", VStr "70"); ("SP_CHF", VStr "on");
   ("SP_COPD", VStr "on"); ("inpatient_admissions", VStr "2");
   ("outpatient_visits", VStr "10"); ("total_medicare_costs", VStr "20001")].

Definition fixture_record_full : dict PyVal :=
  Eval cbv in
    match build_features fixture_parse_float fixture_form_full with
    | inr pd => pd
    | inl _ => []
    end.

Definition fixture_result_full : dict PyVal :=
  Eval cbv in
    match score fixture_parse_float (fixture_predictor None) fixture_form_full with
    | inr fr => fr
    | inl _ => []
    end.


(** The columns assigned by the UPDATE of store_prediction_results (line
    258). *)
Definition update_cols : list string :=
  filter (fun col => negb (String.eqb col "desynpuf_id")) columns.

(** The key under which store_prediction_results files a record (line
    234). *)
Definition patient_id_of (str_of_float : Q -> string) (all_data : dict PyVal) : string :=
  py_str str_of_float (dict_get_default (lower_keys all_data) "desynpuf_id" VNone).


Definition fixture_anonymous : dict PyVal := [("age", VInt 70)].

(** * Properties *)

(** ** Dictionaries *)

Section DictFacts.
Context {V : Type}.
Implicit Types (d : dict V) (k : string) (v : V).

Lemma dict_get_set d k k' v :
  dict_get (dict_set d k' v) k = if String.eqb k k' then Some v else dict_get d k.
Proof.
  induction d as [|[k0 v0] r IH]; simpl.
  - reflexivity.
  - destruct (String.eqb k' k0) eqn:E0; simpl.
    + apply String.eqb_eq in E0; subst k0.
      destruct (String.eqb k k'); reflexivity.
    + rewrite IH.
      destruct (String.eqb k k0) eqn:E1; [|reflexivity].
      apply String.eqb_eq in E1; subst k0.
      destruct (String.eqb k k') eqn:E2; [|reflexivity].
      apply String.eqb_eq in E2; subst k'.
      rewrite String.eqb_refl in E0; discriminate.
Qed.

Lemma dict_get_set_same d k v : dict_get (dict_set d k v) k = Some v.
Proof. rewrite dict_get_set, String.eqb_refl; reflexivity. Qed.

Lemma dict_get_set_other d k k' v :
  k <> k' -> dict_get (dict_set d k' v) k = dict_get d k.
Proof.
  intros H; rewrite dict_get_set.
  destruct (String.eqb k k') eqn:E; [apply String.eqb_eq in E; contradiction|reflexivity].
Qed.

Lemma dict_set_fresh d k v : dict_get d k = None -> dict_set d k v = (d ++ [(k, v)])%list.
Proof.
  induction d as [|[k0 v0] r IH]; simpl; intros H.
  - reflexivity.
  - destruct (String.eqb k k0); [discriminate|].
    rewrite IH by assumption; reflexivity.
Qed.

Lemma dict_get_app d1 d2 k :
  dict_get (d1 ++ d2)%list k =
  match dict_get d1 k with Some v => Some v | None => dict_get d2 k end.
Proof.
  induction d1 as [|[k0 v0] r IH]; simpl; [reflexivity|].
  destruct (String.eqb k k0); [reflexivity|apply IH].
Qed.

Lemma dict_get_None_keys d k : dict_get d k = None <-> ~ In k (dict_keys d).
Proof.
  induction d as [|[k0 v0] r IH]; simpl.
  - tauto.
  - destruct (String.eqb k k0) eqn:E.
    + apply String.eqb_eq in E; subst; split; [discriminate|tauto].
    + apply String.eqb_neq in E. rewrite IH. split; intros H; [|tauto].
      intros [H1|H1]; [congruence|tauto].
Qed.

(** A loop that stores [g c] under the key [f c] for the selected elements
    of a list whose keys are new and pairwise distinct appends one entry
    per selected element, in order. *)
Lemma fold_set_fresh {A : Type} (f : A -> string) (g : A -> V) (sel : A -> bool)
    (l : list A) (acc : dict V) :
  NoDup (map f l) ->
  (forall c, In c l -> dict_get acc (f c) = None) ->
  fold_left (fun d c => if sel c then dict_set d (f c) (g c) else d) l acc
  = (acc ++ map (fun c => (f c, g c)) (filter sel l))%list.
Proof.
  revert acc; induction l as [|a l IH]; simpl; intros acc ND Hacc.
  - rewrite app_nil_r; reflexivity.
  - inversion ND as [|? ? Hnotin ND']; subst.
    destruct (sel a) eqn:Ea.
    + rewrite IH; trivial.
      * rewrite dict_set_fresh by (apply Hacc; left; reflexivity).
        rewrite <- app_assoc; reflexivity.
      * intros c Hc. rewrite dict_get_set_other; [apply Hacc; right; assumption|].
        intros Heq; apply Hnotin; rewrite <- Heq; apply in_map; assumption.
    + apply IH; trivial. intros c Hc; apply Hacc; right; assumption.
Qed.

Lemma dict_get_map_in {A : Type} (f : A -> string) (g : A -> V) (l : list A) (c : A) :
  In c l ->
  (forall c', In c' l -> f c' = f c -> c' = c) ->
  dict_get (map (fun c => (f c, g c)) l) (f c) = Some (g c).
Proof.
  induction l as [|a l IH]; simpl; intros Hin Hinj; [contradiction|].
  destruct (String.eqb (f c) (f a)) eqn:E.
  - apply String.eqb_eq in E.
    rewrite (Hinj a (or_introl eq_refl) (eq_sym E)); reflexivity.
  - destruct Hin as [->|Hin]; [rewrite String.eqb_refl in E; discriminate|].
    apply IH; [assumption|]. intros c' Hc'; apply Hinj; right; assumption.
Qed.

Lemma dict_get_map_key {A : Type} (f : A -> string) (g : A -> V) (l : list A) k :
  dict_get (map (fun c => (f c, g c)) l) k <> None -> exists c, In c l /\ k = f c.
Proof.
  induction l as [|a l IH]; simpl; [congruence|].
  destruct (String.eqb k (f a)) eqn:E.
  - apply String.eqb_eq in E. exists a. auto.
  - intros H. destruct (IH H) as (c & Hc & Hk). exists c. auto.
Qed.
End DictFacts.

(** ** Tier classification and derived costs *)

Lemma Qle_bool_true x y : Qle_bool x y = true <-> (x <= y)%Q.
Proof. apply Qle_bool_iff. Qed.

Lemma Qle_bool_false x y : Qle_bool x y = false <-> (y < x)%Q.
Proof.
  split; intros H.
  - apply Qnot_le_lt. intros Hle. apply Qle_bool_iff in Hle. congruence.
  - destruct (Qle_bool x y) eqn:E; [|reflexivity].
    apply Qle_bool_iff in E. exfalso. apply (Qlt_not_le _ _ H E).
Qed.

Lemma Qlt_bool_true x y : Qlt_bool x y = true <-> (x < y)%Q.
Proof.
  unfold Qlt_bool. rewrite negb_true_iff. apply Qle_bool_false.
Qed.

Lemma Qlt_bool_false x y : Qlt_bool x y = false <-> (y <= x)%Q.
Proof.
  unfold Qlt_bool. rewrite negb_false_iff. apply Qle_bool_true.
Qed.

(** The five cases of the threshold chain. *)
Lemma risk_tier_of_cases (p : Q) :
  (risk_tier_of p = 5 /\ (85 # 100 <= p)%Q) \/
  (risk_tier_of p = 4 /\ (65 # 100 <= p /\ p < 85 # 100)%Q) \/
  (risk_tier_of p = 3 /\ (40 # 100 <= p /\ p < 65 # 100)%Q) \/
  (risk_tier_of p = 2 /\ (15 # 100 <= p /\ p < 40 # 100)%Q) \/
  (risk_tier_of p = 1 /\ (p < 15 # 100)%Q).
Proof.
  unfold risk_tier_of.
  destruct (Qle_bool (85 # 100) p) eqn:E5.
  { left. split; [reflexivity|]. apply Qle_bool_true; assumption. }
  apply Qle_bool_false in E5.
  destruct (Qle_bool (65 # 100) p) eqn:E4.
  { right; left. apply Qle_bool_true in E4. auto. }
  apply Qle_bool_false in E4.
  destruct (Qle_bool (40 # 100) p) eqn:E3.
  { right; right; left. apply Qle_bool_true in E3. auto. }
  apply Qle_bool_false in E3.
  destruct (Qle_bool (15 # 100) p) eqn:E2.
  { right; right; right; left. apply Qle_bool_true in E2. auto. }
  apply Qle_bool_false in E2.
  right; right; right; right. auto.
Qed.

Lemma tier_info_total (p : Q) : exists info, tier_info (risk_tier_of p) = Some info.
Proof.
  destruct (risk_tier_of_cases p) as [[-> _]|[[-> _]|[[-> _]|[[-> _]|[-> _]]]]];
    simpl; eauto.
Qed.

Lemma score_value_or_zero (s : option Q) :
  (score_value (or_zero s) == match s with Some q => q | None => 0 end)%Q.
Proof.
  destruct s as [q|]; simpl; [|reflexivity].
  destruct (Qeq_bool q 0) eqn:E; simpl.
  - apply Qeq_bool_eq in E. unfold score_value; simpl. symmetry; exact E.
  - reflexivity.
Qed.

Ltac lookup_in_update :=
  unfold dict_update; cbn [fold_left fst snd];
  repeat rewrite dict_get_set; cbn [String.eqb Ascii.eqb Bool.eqb];
  try reflexivity.

(** [assemble] never raises, and the fields it adds last are the ones read
    back from the result, whatever the enriched record already contains. *)
Lemma assemble_fields (processed_data : dict PyVal) (predictions : dict Q) :
  let primary := primary_risk_score_of predictions in
  let p := score_value primary in
  exists info final_results,
    tier_info (risk_tier_of p) = Some info /\
    assemble processed_data predictions = ok final_results /\
    dict_get final_results "risk_tier" = Some (VInt (risk_tier_of p)) /\
    dict_get final_results "risk_tier_label" = Some (VStr (label info)) /\
    dict_get final_results "care_intervention" = Some (VStr (intervention info)) /\
    dict_get final_results "annual_intervention_cost" = Some (VInt (cost info)) /\
    dict_get final_results "prevented_hospitalizations" = Some (VFloat (p * rate info)) /\
    dict_get final_results "cost_savings" = Some (VFloat (p * rate info * 10000)) /\
    dict_get final_results "risk_30d_hospitalization" = Some primary.
Proof.
  intros primary p.
  destruct (tier_info_total p) as [info Hinfo].
  exists info. eexists. split; [exact Hinfo|].
  split.
  { unfold assemble, tier_info_at. fold primary. fold p. rewrite Hinfo. simpl. reflexivity. }
  repeat split; lookup_in_update.
Qed.

(** C1. The tier computed by [process_uploaded_data] from the 30-day
    hospitalization score [p] is 5 iff [p >= 0.85], 4 iff [0.65 <= p < 0.85],
    3 iff [0.40 <= p < 0.65], 2 iff [0.15 <= p < 0.40] and 1 iff [p < 0.15];
    the label, intervention, annual cost and prevention rate written to the
    result are those of that tier's row in the fixed five-row table; a
    missing score is read as 0 and gives tier 1. *)
Theorem C1_tier_classification (processed_data : dict PyVal) (predictions : dict Q) :
  let p := score_value (primary_risk_score_of predictions) in
  let t := risk_tier_of p in
  ((t = 5 <-> (85 # 100 <= p)%Q) /\
   (t = 4 <-> (65 # 100 <= p /\ p < 85 # 100)%Q) /\
   (t = 3 <-> (40 # 100 <= p /\ p < 65 # 100)%Q) /\
   (t = 2 <-> (15 # 100 <= p /\ p < 40 # 100)%Q) /\
   (t = 1 <-> (p < 15 # 100)%Q)) /\
  (tier_info 1 = Some (mkTier "Low Risk" "Preventive Care" 200 (2 # 100)) /\
   tier_info 2 = Some (mkTier "Low-Moderate Risk" "Enhanced Wellness" 300 (5 # 100)) /\
   tier_info 3 = Some (mkTier "Moderate Risk" "Care Coordination" 600 (15 # 100)) /\
   tier_info 4 = Some (mkTier "High Risk" "Case Management" 800 (25 # 100)) /\
   tier_info 5 = Some (mkTier "Critical Risk" "Intensive Management" 1000 (35 # 100))) /\
  (exists info final_results,
     tier_info t = Some info /\
     assemble processed_data predictions = ok final_results /\
     dict_get final_results "risk_tier" = Some (VInt t) /\
     dict_get final_results "risk_tier_label" = Some (VStr (label info)) /\
     dict_get final_results "care_intervention" = Some (VStr (intervention info)) /\
     dict_get final_results "annual_intervention_cost" = Some (VInt (cost info)) /\
     dict_get final_results "prevented_hospitalizations" = Some (VFloat (p * rate info))) /\
  match dict_get predictions "30d_hospitalization_score" with
  | None => primary_risk_score_of predictions = VInt 0 /\ t = 1
  | Some q => (p == q)%Q
  end.
Proof.
  intros p t.
  split; [|split; [|split]].
  - subst t.
    destruct (risk_tier_of_cases p) as [[E H]|[[E H]|[[E H]|[[E H]|[E H]]]]];
      rewrite E; repeat split; intros; try discriminate; try lra; tauto.
  - repeat split; reflexivity.
  - destruct (assemble_fields processed_data predictions)
      as (info & fr & H1 & H2 & H3 & H4 & H5 & H6 & H7 & _).
    exists info, fr. fold p in H1, H3, H7. fold t in H1, H3. tauto.
  - subst t p. unfold primary_risk_score_of.
    destruct (dict_get predictions "30d_hospitalization_score") as [q|].
    + apply (score_value_or_zero (Some q)).
    + split; reflexivity.
Qed.


(** ** Derived features *)

Lemma age_bands_num (age : PyVal) (a : Q) :
  num_of age = Some a ->
  age_bands age =
  ok (flag (Qle_bool (inject_Z 65) a && Qlt_bool a (inject_Z 75)),
      flag (Qle_bool (inject_Z 75) a && Qlt_bool a (inject_Z 85)),
      flag (Qle_bool (inject_Z 85) a)).
Proof.
  intros H. unfold age_bands, py_between, py_ge, py_le, py_lt.
  rewrite H. cbn [num_of bind ok].
  destruct (Qle_bool (inject_Z 65) a); destruct (Qle_bool (inject_Z 75) a);
    reflexivity.
Qed.

Lemma age_bands_ok_num (age : PyVal) bands :
  age_bands age = ok bands -> exists a, num_of age = Some a.
Proof.
  destruct age; simpl; try discriminate; eauto.
Qed.

Section FeatureFacts.
Variable parse_float : string -> option Q.

(** What a successful run of lines 153-174 has stored, step by step. *)
Lemma build_features_inv (form_data pd : dict PyVal) :
  build_features parse_float form_data = ok pd ->
  let pd0 := set_condition_flags form_data (passthrough parse_float form_data) in
  exists bands hic ph fe hc,
    age_bands (dict_get_default pd0 "age" (VInt 0)) = ok bands /\
    pd = dict_set (dict_set (dict_set (dict_set (dict_set (dict_set (dict_set pd0
           "age_65_74" (fst (fst bands)))
           "age_75_84" (snd (fst bands)))
           "age_85_plus" (snd bands))
           "high_impact_conditions" hic)
           "prior_hospitalization" (flag ph))
           "frequent_ed_user" (flag fe))
           "high_cost_patient" (flag hc).
Proof.
  intros H pd0. unfold build_features, bind in H. fold pd0 in H.
  destruct (age_bands (dict_get_default pd0 "age" (VInt 0))) as [e|bands];
    [discriminate|].
  match type of H with
  | match ?x with _ => _ end = _ => destruct x as [e|hic]; [discriminate|]
  end.
  match type of H with
  | match ?x with _ => _ end = _ => destruct x as [e|ph]; [discriminate|]
  end.
  match type of H with
  | match ?x with _ => _ end = _ => destruct x as [e|fe]; [discriminate|]
  end.
  match type of H with
  | match ?x with _ => _ end = _ => destruct x as [e|hc]; [discriminate|]
  end.
  exists bands, hic, ph, fe, hc. split; [reflexivity|].
  unfold ok in H. injection H as <-. reflexivity.
Qed.
End FeatureFacts.

Lemma flag_one (b : bool) : flag b = VInt 1 <-> b = true.
Proof. destruct b; simpl; split; intros H; try reflexivity; discriminate. Qed.


(** ** Condition flags of the enriched record *)

Section ConditionFlagFacts.
Variable parse_float : string -> option Q.

Lemma passthrough_acc_drops (form_data acc : dict PyVal) (k : string) :
  is_condition_key k = true ->
  dict_get acc k = None ->
  dict_get
    (fold_left
       (fun pd kv =>
          if is_condition_key (fst kv) then pd
          else dict_set pd (fst kv) (coerce parse_float (snd kv)))
       form_data acc) k = None.
Proof.
  intros Hk. revert acc.
  induction form_data as [|[k0 v0] r IH]; simpl; intros acc Hacc; [assumption|].
  apply IH. destruct (is_condition_key k0) eqn:E0; [assumption|].
  rewrite dict_get_set_other; [assumption|]. intros ->; congruence.
Qed.

(** No key with the [SP_] prefix, in any letter case, is passed through. *)
Lemma passthrough_drops (form_data : dict PyVal) (k : string) :
  is_condition_key k = true -> dict_get (passthrough parse_float form_data) k = None.
Proof.
  intros Hk. apply passthrough_acc_drops; [assumption|reflexivity].
Qed.

(** Each of the eleven upper-case codes is written as the membership test
    of that exact key in the form. *)
Lemma set_condition_flags_get (form_data pd : dict PyVal) (field : string) :
  In field condition_fields_upper ->
  dict_get (set_condition_flags form_data pd) field = Some (flag (dict_mem form_data field)).
Proof.
  unfold set_condition_flags, condition_fields_upper. cbn [fold_left In].
  intros H.
  repeat (destruct H as [<-|H];
          [repeat rewrite dict_get_set; cbn [String.eqb Ascii.eqb Bool.eqb]; reflexivity|]).
  contradiction.
Qed.

Lemma set_condition_flags_other (form_data pd : dict PyVal) (k : string) :
  ~ In k condition_fields_upper ->
  dict_get (set_condition_flags form_data pd) k = dict_get pd k.
Proof.
  unfold set_condition_flags. generalize condition_fields_upper as l.
  intros l; revert pd. induction l as [|f l IH]; simpl; intros pd H; [reflexivity|].
  rewrite IH by tauto. apply dict_get_set_other. intros ->; tauto.
Qed.

(** The flags survive the later steps of [build_features]. *)
Lemma build_features_condition_flag (form_data pd : dict PyVal) (field : string) :
  build_features parse_float form_data = ok pd ->
  In field condition_fields_upper ->
  dict_get pd field = Some (flag (dict_mem form_data field)).
Proof.
  intros H Hin.
  destruct (build_features_inv parse_float form_data pd H)
    as (bands & hic & ph & fe & hc & _ & ->).
  rewrite <- (set_condition_flags_get form_data (passthrough parse_float form_data) field Hin).
  unfold condition_fields_upper in Hin. cbn [In] in Hin.
  repeat (destruct Hin as [<-|Hin];
          [repeat rewrite dict_get_set; cbn [String.eqb Ascii.eqb Bool.eqb]; reflexivity|]).
  contradiction.
Qed.

(** C2 (evaluation at the diverging input). A form that carries the heart
    failure flag under the lower-case key [sp_chf] loses it: the key is
    recognised as a condition key and dropped, and the re-derived
    [SP_CHF] is 0 because the membership test looks for the upper-case
    key only. *)
Theorem C2_lowercase_condition_key_lost :
  is_condition_key "sp_chf" = true /\
  dict_mem [("sp_chf", VStr "1")] "sp_chf" = true /\
  exists pd,
    build_features parse_float [("sp_chf", VStr "1")] = ok pd /\
    dict_get pd "sp_chf" = None /\
    dict_get pd "SP_CHF" = Some (VInt 0).
Proof.
  split; [reflexivity|]. split; [reflexivity|].
  eexists. split; [vm_compute; reflexivity|]. split; reflexivity.
Qed.
End ConditionFlagFacts.

(** ** Normalisation of the input of [predict] *)

Lemma fill_missing_get (cols : list string) (t : dict PyVal) (k : string) :
  dict_get (fill_missing cols t) k =
  match dict_get t k with
  | Some v => Some v
  | None => if existsb (String.eqb k) cols then Some (VInt 0) else None
  end.
Proof.
  unfold fill_missing. revert t.
  induction cols as [|f cols IH]; simpl; intros t.
  - destruct (dict_get t k); reflexivity.
  - rewrite IH. unfold dict_mem.
    destruct (dict_get t f) eqn:Ef.
    + destruct (dict_get t k) eqn:Ek; [reflexivity|].
      destruct (String.eqb k f) eqn:E; [|reflexivity].
      apply String.eqb_eq in E; subst; congruence.
    + rewrite dict_get_set.
      destruct (String.eqb k f) eqn:E.
      * apply String.eqb_eq in E; subst. rewrite Ef. reflexivity.
      * destruct (dict_get t k); reflexivity.
Qed.

Lemma existsb_eqb_In (k : string) (l : list string) :
  In k l -> existsb (String.eqb k) l = true.
Proof.
  intros H. apply existsb_exists. exists k. split; [assumption|apply String.eqb_refl].
Qed.

Lemma select_columns_normalize (cols all : list string) (t : dict PyVal) :
  incl cols all ->
  select_columns cols (fill_missing all t)
  = ok (map (fun f => dict_get_default t f (VInt 0)) cols).
Proof.
  induction cols as [|c cols IH]; simpl; intros Hincl; [reflexivity|].
  rewrite fill_missing_get, IH by (intros x Hx; apply Hincl; right; assumption).
  unfold dict_get_default.
  destruct (dict_get t c); simpl; [reflexivity|].
  rewrite existsb_eqb_In by (apply Hincl; left; reflexivity). reflexivity.
Qed.

Lemma dict_map_keys_acc_None {V : Type} (g : string -> string) (d acc : dict V) (k : string) :
  dict_get (fold_left (fun a kv => dict_set a (g (fst kv)) (snd kv)) d acc) k = None
  <-> dict_get acc k = None /\ forall k0, In k0 (dict_keys d) -> g k0 <> k.
Proof.
  revert acc. induction d as [|[k0 v0] r IH]; simpl; intros acc.
  - split; [intros H; split; [assumption|tauto]|tauto].
  - rewrite IH, dict_get_set.
    destruct (String.eqb k (g k0)) eqn:E.
    + apply String.eqb_eq in E. split; [intros [H _]; discriminate|].
      intros [_ H]. exfalso. apply (H k0); [left; reflexivity|congruence].
    + apply String.eqb_neq in E. split; intros [H1 H2]; (split; [assumption|]).
      * intros k1 [<-|H]; [congruence|apply H2; assumption].
      * intros k1 H; apply H2; right; assumption.
Qed.

(** A name is missing from the lower-cased record exactly when no input key
    equals it up to letter case. *)
Lemma lower_keys_None {V : Type} (d : dict V) (k : string) :
  dict_get (lower_keys d) k = None <-> forall k0, In k0 (dict_keys d) -> lower k0 <> k.
Proof.
  unfold lower_keys, dict_map_keys. rewrite dict_map_keys_acc_None. simpl. tauto.
Qed.

(** C8. Whatever the input record, selecting the required columns after
    normalisation never fails: the vector has one entry per required
    feature name, in order, equal to the input value stored under that name
    up to letter case and to 0 when no input key matches; it depends on the
    input only through the required names, so extra fields are ignored; and
    [predict] can only raise for unloaded models or inside the fitted
    estimators. *)
Theorem C8_missing_features_default (P : Predictor) (input_data : dict PyVal) :
  let cols := feature_columns P in
  let X := map (fun f => dict_get_default (lower_keys input_data) f (VInt 0)) cols in
  select_columns cols (normalize cols input_data) = ok X /\
  length X = length cols /\
  (forall i f, nth_error cols i = Some f ->
     (forall k, In k (dict_keys input_data) -> lower k <> f) ->
     nth_error X i = Some (VInt 0)) /\
  (forall other : dict PyVal,
     (forall f, In f cols -> dict_get (lower_keys other) f = dict_get (lower_keys input_data) f) ->
     select_columns cols (normalize cols other) = ok X) /\
  predict P input_data =
    (parts <- loaded_parts P ;; X_scaled <- fst parts X ;; score_models (snd parts) X_scaled []).
Proof.
  intros cols X.
  assert (Hsel : forall d, select_columns cols (normalize cols d)
                 = ok (map (fun f => dict_get_default (lower_keys d) f (VInt 0)) cols)).
  { intros d. unfold normalize. apply select_columns_normalize. apply incl_refl. }
  split; [apply Hsel|].
  split; [subst X; apply length_map|].
  split; [|split].
  - intros i f Hi Habs. subst X.
    rewrite nth_error_map, Hi. simpl.
    apply lower_keys_None in Habs. unfold dict_get_default. rewrite Habs. reflexivity.
  - intros other Hagree. rewrite Hsel. f_equal. subst X.
    apply map_ext_in. intros f Hf. unfold dict_get_default. rewrite Hagree by assumption.
    reflexivity.
  - unfold predict. fold cols. rewrite Hsel. fold X.
    destruct (loaded_parts P) as [e|parts]; reflexivity.
Qed.

(** ** Importance resolution *)

Lemma direct_importances_source (m : Estimator) (r : result (list Q)) :
  direct_importances m = Some r -> direct_source m r.
Proof.
  unfold direct_importances.
  destruct (feature_importances_ m) as [fi|] eqn:Efi.
  - intros [= <-]. apply src_importances; assumption.
  - destruct (coef_ m) as [[|row rest]|] eqn:Ec; intros [= <-]; simpl.
    + apply src_coef_empty; assumption.
    + apply src_coef with (rest := rest); assumption.
Qed.

Lemma direct_importances_None (m : Estimator) :
  direct_importances m = None <-> feature_importances_ m = None /\ coef_ m = None.
Proof.
  unfold direct_importances.
  destruct (feature_importances_ m); destruct (coef_ m); split;
    try discriminate; try tauto; intros [? ?]; discriminate.
Qed.

Lemma direct_source_functional (m : Estimator) (r1 r2 : result (list Q)) :
  direct_source m r1 -> direct_source m r2 -> r1 = r2.
Proof.
  intros Ha Hb. destruct Ha; destruct Hb; congruence.
Qed.

Lemma resolve_importances_source (m : Estimator) :
  importance_source m (resolve_importances m).
Proof.
  unfold resolve_importances.
  destruct (direct_importances m) as [r|] eqn:Ed.
  - apply src_own, direct_importances_source; assumption.
  - apply direct_importances_None in Ed as [Efi Ec].
    destruct (base_estimator m) as [base|] eqn:Eb.
    + destruct (direct_importances base) as [r|] eqn:Edb.
      * apply src_base with (base := base); trivial.
        apply direct_importances_source. exact Edb.
      * apply direct_importances_None in Edb as [E1 E2].
        apply src_base_none with (base := base); assumption.
    + apply src_none; assumption.
Qed.

Lemma importance_source_functional (m : Estimator) (r1 r2 : result (option (list Q))) :
  importance_source m r1 -> importance_source m r2 -> r1 = r2.
Proof.
  intros Ha Hb.
  destruct Ha as [ra Da|ba ra Fa Ca Ba Da|ba Fa Ca Ba Fb Cb|Fa Ca Ba];
  destruct Hb as [rb Db|bb rb Fb' Cb' Bb Db|bb Fb' Cb' Bb Fbb Cbb|Fb' Cb' Bb];
    try (destruct Da; congruence); try (destruct Db; congruence); try congruence;
    try (rewrite (direct_source_functional _ _ _ Da Db); reflexivity);
    assert (bb = ba) by congruence; subst bb;
    rewrite (direct_source_functional _ _ _ Da Db); reflexivity.
Qed.

(** C5. The importances of the mortality classifier come from, in this
    order: its own per-feature importance scores; else the absolute values
    of its linear coefficients; else the same two checks on its wrapped
    base estimator; else they stay unresolved, and then no impact is
    computed from weights. *)
Theorem C5_importance_priority (model : Estimator) :
  importance_source model (resolve_importances model) /\
  (forall r, importance_source model r -> r = resolve_importances model) /\
  (forall cols patient_conditions,
     impacts_from_weights cols None patient_conditions = []).
Proof.
  split; [apply resolve_importances_source|]. split.
  - intros r Hr.
    apply (importance_source_functional model r _ Hr (resolve_importances_source model)).
  - intros cols pcs. reflexivity.
Qed.

(** ** Condition attribution *)

Lemma condition_fields_clean_NoDup : NoDup (map clean_name condition_fields).
Proof.
  vm_compute.
  repeat (constructor;
          [intros H; cbn [In] in H;
           repeat (destruct H as [H|H]; [discriminate H|]); exact H|]).
  constructor.
Qed.

Lemma clean_name_inj (a b : string) :
  In a condition_fields -> In b condition_fields -> clean_name a = clean_name b -> a = b.
Proof.
  assert (G : forall l, NoDup (map clean_name l) -> In a l -> In b l ->
                        clean_name a = clean_name b -> a = b).
  { induction l as [|x l IH]; simpl; intros ND Ha Hb E; [contradiction|].
    inversion ND as [|? ? Hx ND']; subst.
    destruct Ha as [->|Ha]; destruct Hb as [->|Hb]; trivial.
    - exfalso. apply Hx. rewrite E. apply in_map; assumption.
    - exfalso. apply Hx. rewrite <- E. apply in_map; assumption.
    - apply IH; assumption. }
  apply G, condition_fields_clean_NoDup.
Qed.

Lemma NoDup_map_filter {A B : Type} (f : A -> B) (h : A -> bool) (l : list A) :
  NoDup (map f l) -> NoDup (map f (filter h l)).
Proof.
  induction l as [|a l IH]; simpl; intros ND; [constructor|].
  inversion ND as [|? ? Hx ND']; subst.
  destruct (h a); simpl; [|apply IH; assumption].
  constructor; [|apply IH; assumption].
  intros Hin. apply Hx. apply in_map_iff in Hin as (c & Ec & Hc).
  apply in_map_iff. exists c. split; [assumption|].
  apply filter_In in Hc. tauto.
Qed.

Lemma patient_conditions_NoDup (patient_data : dict PyVal) :
  NoDup (map clean_name (patient_conditions_of patient_data)).
Proof.
  apply NoDup_map_filter, condition_fields_clean_NoDup.
Qed.

Lemma patient_conditions_In (patient_data : dict PyVal) (c : string) :
  In c (patient_conditions_of patient_data) <->
  In c condition_fields /\ has_condition patient_data c = true.
Proof. apply filter_In. Qed.

(** The fallback loop stores one entry per present condition. *)
Lemma fallback_impacts_map (patient_data : dict PyVal) :
  fallback_impacts (patient_conditions_of patient_data) =
  map (fun c => (clean_name c,
                 round2 (100 / inject_Z (Z.of_nat (length (patient_conditions_of patient_data))))))
      (patient_conditions_of patient_data).
Proof.
  set (pcs := patient_conditions_of patient_data).
  transitivity
    (([] : dict Q) ++
     map (fun c => (clean_name c, round2 (100 / inject_Z (Z.of_nat (length pcs)))))
       (filter (fun _ => true) pcs))%list.
  - apply (fold_set_fresh clean_name
             (fun _ => round2 (100 / inject_Z (Z.of_nat (length pcs)))) (fun _ => true) pcs []).
    + apply patient_conditions_NoDup.
    + reflexivity.
  - simpl. f_equal. clear. induction pcs as [|a l IH]; simpl; congruence.
Qed.

(** The weighted loop stores one entry per present condition whose relative
    impact is positive. *)
Lemma weighted_impacts_map (patient_data : dict PyVal) (importance_dict : dict Q) (total : Q) :
  weighted_impacts importance_dict total (patient_conditions_of patient_data) =
  map (fun c => (clean_name c, round2 (relative_impact_of importance_dict total c)))
      (filter (fun c => Qlt_bool 0 (relative_impact_of importance_dict total c))
         (patient_conditions_of patient_data)).
Proof.
  apply (fold_set_fresh clean_name
           (fun c => round2 (relative_impact_of importance_dict total c))
           (fun c => Qlt_bool 0 (relative_impact_of importance_dict total c))
           (patient_conditions_of patient_data) []).
  - apply patient_conditions_NoDup.
  - reflexivity.
Qed.

Lemma predict_ok_loaded (P : Predictor) (input_data : dict PyVal) (preds : dict Q) :
  predict P input_data = ok preds -> not_loaded P = false.
Proof.
  unfold predict, loaded_parts, not_loaded.
  destruct (pipeline P); [|discriminate].
  destruct (models P) as [[|m ms]|]; [discriminate|reflexivity|discriminate].
Qed.

(** The straight-line path of [get_condition_impact]: models loaded, base
    prediction computed, at least one present condition, a mortality model
    whose importances resolve (possibly to nothing). *)
Lemma get_condition_impact_main (P : Predictor) (patient_data : dict PyVal)
    (preds : dict Q) (ms : dict Estimator) (model : Estimator)
    (importances : option (list Q)) :
  predict P patient_data = ok preds ->
  models P = Some ms ->
  dict_get ms "mortality" = Some model ->
  resolve_importances model = ok importances ->
  patient_conditions_of patient_data <> [] ->
  get_condition_impact P patient_data =
  ok (with_fallback
        (impacts_from_weights (feature_columns P) importances
           (patient_conditions_of patient_data))
        (patient_conditions_of patient_data)).
Proof.
  intros Hp Hms Hm Hr Hne. unfold get_condition_impact.
  rewrite (predict_ok_loaded P patient_data preds Hp), Hp. cbn [bind ok].
  destruct (patient_conditions_of patient_data) as [|c pcs] eqn:E; [congruence|].
  rewrite Hms, Hm, Hr. reflexivity.
Qed.

(** Every key of the returned map is the display name of a present
    condition. *)
Lemma get_condition_impact_keys (P : Predictor) (patient_data : dict PyVal)
    (impacts : dict Q) (k : string) :
  get_condition_impact P patient_data = ok impacts ->
  dict_get impacts k <> None ->
  exists c, In c (patient_conditions_of patient_data) /\ k = clean_name c.
Proof.
  unfold get_condition_impact, ok.
  destruct (not_loaded P); [intros [= <-]; simpl; congruence|].
  destruct (predict P patient_data) as [e|preds]; [discriminate|]. cbn [bind].
  pose proof (fallback_impacts_map patient_data) as Hfb.
  destruct (patient_conditions_of patient_data) as [|c0 pcs] eqn:E;
    [intros [= <-]; simpl; congruence|].
  destruct (dict_get _ "mortality") as [model|]; [|intros [= <-]; simpl; congruence].
  destruct (resolve_importances model) as [e|importances]; [discriminate|]. cbn [bind].
  intros [= <-] Hk. unfold with_fallback in Hk.
  destruct (impacts_from_weights (feature_columns P) importances (c0 :: pcs)) as [|e w] eqn:Ew.
  - rewrite Hfb in Hk. apply dict_get_map_key in Hk. exact Hk.
  - rewrite <- Ew in Hk. unfold impacts_from_weights in Hk.
    destruct importances as [imp|]; [|simpl in Hk; congruence].
    destruct (feature_columns P) as [|f cols]; [simpl in Hk; congruence|].
    destruct (Qlt_bool 0 _); [|simpl in Hk; congruence].
    rewrite <- E in Hk. rewrite weighted_impacts_map in Hk.
    apply dict_get_map_key in Hk as (c & Hc & ->).
    apply filter_In in Hc. exists c. rewrite <- E. tauto.
Qed.




Lemma fold_left_Qplus_acc (l : list Q) (a : Q) :
  (fold_left Qplus l a == a + fold_left Qplus l 0)%Q.
Proof.
  revert a. induction l as [|x l IH]; simpl; intros a.
  - ring.
  - rewrite (IH (a + x)%Q), (IH (0 + x)%Q). ring.
Qed.

Lemma Qsum_cons (x : Q) (l : list Q) : (Qsum (x :: l) == x + Qsum l)%Q.
Proof.
  unfold Qsum. simpl. rewrite fold_left_Qplus_acc. ring.
Qed.

Lemma Qsum_const {A : Type} (c : Q) (l : list A) :
  (Qsum (map (fun _ => c) l) == inject_Z (Z.of_nat (length l)) * c)%Q.
Proof.
  induction l as [|a l IH].
  - simpl. unfold Qsum. simpl. ring.
  - cbn [map length]. rewrite Qsum_cons, IH, Nat2Z.inj_succ.
    unfold Z.succ. rewrite inject_Z_plus. ring.
Qed.


(** Sum of [n] uniform shares, for the possible numbers of present
    conditions. *)
Lemma uniform_share_sum (n : nat) :
  (1 <= n <= 11)%nat ->
  let share := round2 (100 / inject_Z (Z.of_nat n)) in
  (Qabs (inject_Z (Z.of_nat n) * share - 100) <= 3 # 100)%Q /\
  ((inject_Z (Z.of_nat n) * share == 100)%Q <-> 10000 mod Z.of_nat n = 0).
Proof.
  intros [H1 H2].
  do 12 (destruct n as [|n];
         [first [lia|vm_compute; split;
                     [discriminate|split; intros H; first [reflexivity|discriminate H]]]|]).
  lia.
Qed.

Lemma patient_conditions_length (patient_data : dict PyVal) :
  (length (patient_conditions_of patient_data) <= 11)%nat.
Proof.
  unfold patient_conditions_of.
  apply (Nat.le_trans _ (length condition_fields)); [apply filter_length_le|].
  simpl. lia.
Qed.

Lemma impacts_from_weights_unassignable (cols : list string)
    (importances : option (list Q)) (pcs : list string) :
  importances = None \/ cols = [] \/
  (exists imp, importances = Some imp /\ (total_condition_importance cols imp pcs <= 0)%Q) ->
  impacts_from_weights cols importances pcs = [].
Proof.
  intros [->|[->|(imp & -> & Hle)]]; unfold impacts_from_weights.
  - reflexivity.
  - destruct importances; reflexivity.
  - destruct cols as [|f cols]; [reflexivity|].
    apply Qlt_bool_false in Hle.
    unfold total_condition_importance, importance_of in Hle. rewrite Hle. reflexivity.
Qed.

(** C3 (as amended). When the models are loaded, the base prediction
    succeeds, the mortality classifier is present and no weight can be
    assigned (importances unresolved, no feature names, or the present
    conditions' importances sum to at most 0), a patient with [n >= 1]
    present conditions receives the map that gives each present condition
    [round(100 / n, 2)].  The map is non-empty; its values sum to
    [n * round(100 / n, 2)], which is within 0.03 of 100 and equals 100
    exactly when [n] divides 10000. *)
Theorem C3_fallback_uniform (P : Predictor) (patient_data : dict PyVal)
    (preds : dict Q) (ms : dict Estimator) (model : Estimator)
    (importances : option (list Q)) :
  predict P patient_data = ok preds ->
  models P = Some ms ->
  dict_get ms "mortality" = Some model ->
  resolve_importances model = ok importances ->
  patient_conditions_of patient_data <> [] ->
  (importances = None \/ feature_columns P = [] \/
   exists imp, importances = Some imp /\
     (total_condition_importance (feature_columns P) imp
        (patient_conditions_of patient_data) <= 0)%Q) ->
  let pcs := patient_conditions_of patient_data in
  let n := Z.of_nat (length pcs) in
  let share := round2 (100 / inject_Z n) in
  exists impacts,
    get_condition_impact P patient_data = ok impacts /\
    impacts = map (fun c => (clean_name c, share)) pcs /\
    impacts <> [] /\
    (forall c, In c pcs -> dict_get impacts (clean_name c) = Some share) /\
    (Qsum (map snd impacts) == inject_Z n * share)%Q /\
    (Qabs (Qsum (map snd impacts) - 100) <= 3 # 100)%Q /\
    ((Qsum (map snd impacts) == 100)%Q <-> 10000 mod n = 0).
Proof.
  intros Hp Hms Hm Hr Hne Hun.
  assert (Hres : get_condition_impact P patient_data
                 = ok (fallback_impacts (patient_conditions_of patient_data))).
  { rewrite (get_condition_impact_main P patient_data preds ms model importances)
      by assumption.
    rewrite impacts_from_weights_unassignable by assumption.
    unfold with_fallback.
    destruct (patient_conditions_of patient_data); [contradiction|reflexivity]. }
  rewrite fallback_impacts_map in Hres.
  assert (Hn : (1 <= length (patient_conditions_of patient_data) <= 11)%nat).
  { split; [|apply patient_conditions_length].
    destruct (patient_conditions_of patient_data); [contradiction|simpl; lia]. }
  intros pcs n share. fold pcs in Hres. fold n in Hres. fold share in Hres.
  exists (map (fun c => (clean_name c, share)) pcs).
  assert (Hsum : (Qsum (map snd (map (fun c => (clean_name c, share)) pcs))
                  == inject_Z n * share)%Q).
  { rewrite map_map. cbn [snd]. apply Qsum_const. }
  destruct (uniform_share_sum (length pcs) Hn) as [Hb Hex].
  fold n in Hb, Hex. fold share in Hb, Hex.
  split; [exact Hres|]. split; [reflexivity|].
  split; [intros Heq; apply map_eq_nil in Heq; apply Hne; exact Heq|].
  split.
  { intros c Hc.
    apply (dict_get_map_in clean_name (fun _ => share) pcs c Hc).
    intros c' Hc' E. apply clean_name_inj; trivial.
    - apply patient_conditions_In in Hc'. tauto.
    - apply patient_conditions_In in Hc. tauto. }
  split; [exact Hsum|].
  split.
  - rewrite Hsum. exact Hb.
  - rewrite Hsum. exact Hex.
Qed.




(** C10. A condition is in the patient's present set only when the record
    maps its lower-case code to a value equal to 1.  Any other value (a
    string, another number) or a missing lower-case key leaves it out of the
    present set and of the impact map, and two records with the same present
    set get the same impact map. *)
Theorem C10_presence_requires_one (P : Predictor) (patient_data : dict PyVal)
    (impacts : dict Q) (c : string) :
  get_condition_impact P patient_data = ok impacts ->
  In c condition_fields ->
  (In c (patient_conditions_of patient_data) <->
   exists v, dict_get patient_data c = Some v /\ py_eq_one v = true) /\
  (forall s, py_eq_one (VStr s) = false) /\
  (forall z, z <> 1 -> py_eq_one (VInt z) = false) /\
  py_eq_one VNone = false /\
  (dict_get patient_data c = None -> ~ In c (patient_conditions_of patient_data)) /\
  (~ In c (patient_conditions_of patient_data) -> dict_get impacts (clean_name c) = None) /\
  (length impacts <= length (patient_conditions_of patient_data))%nat /\
  (forall other preds,
     predict P other = ok preds ->
     patient_conditions_of other = patient_conditions_of patient_data ->
     get_condition_impact P other = ok impacts).
Proof.
  intros Hres Hc.
  split; [|split; [|split; [|split; [|split; [|split; [|split]]]]]].
  - rewrite patient_conditions_In. unfold has_condition.
    destruct (dict_get patient_data c) as [v|]; split.
    + intros [_ H]. exists v. auto.
    + intros (v' & [= <-] & H). auto.
    + intros [_ H]. discriminate.
    + intros (v' & H & _). discriminate.
  - reflexivity.
  - intros z Hz. simpl. apply Z.eqb_neq. assumption.
  - reflexivity.
  - intros Hnone Hin. apply patient_conditions_In in Hin as [_ Hin].
    unfold has_condition in Hin. rewrite Hnone in Hin. discriminate.
  - intros Hnot.
    destruct (dict_get impacts (clean_name c)) eqn:E; [|reflexivity].
    destruct (get_condition_impact_keys P patient_data impacts (clean_name c) Hres)
      as (c' & Hc' & Heq); [congruence|].
    exfalso. apply Hnot.
    assert (c = c'); [|subst; assumption].
    apply clean_name_inj; trivial. apply patient_conditions_In in Hc'. tauto.
  - revert Hres. unfold get_condition_impact, ok.
    destruct (not_loaded P); [intros [= <-]; simpl; lia|].
    destruct (predict P patient_data) as [e|preds]; [discriminate|]. cbn [bind].
    pose proof (fallback_impacts_map patient_data) as Hfb.
    pose proof (weighted_impacts_map patient_data) as Hwm.
    destruct (patient_conditions_of patient_data) as [|c0 pcs] eqn:E;
      [intros [= <-]; simpl; lia|].
    destruct (dict_get _ "mortality") as [model|]; [|intros [= <-]; simpl; lia].
    destruct (resolve_importances model) as [e|importances]; [discriminate|]. cbn [bind].
    intros [= <-]. unfold with_fallback.
    destruct (impacts_from_weights (feature_columns P) importances (c0 :: pcs))
      as [|e w] eqn:Ew.
    + rewrite Hfb, length_map. lia.
    + rewrite <- Ew. unfold impacts_from_weights.
      destruct importances as [imp|]; [|simpl; lia].
      destruct (feature_columns P) as [|f cols]; [simpl; lia|].
      destruct (Qlt_bool 0 _); [|simpl; lia].
      rewrite Hwm, length_map. apply filter_length_le.
  - intros other preds Hp Hsame. revert Hres. unfold get_condition_impact.
    rewrite (predict_ok_loaded P other preds Hp), Hp, Hsame.
    destruct (predict P patient_data) as [e|preds0]; [discriminate|].
    cbn [bind]. trivial.
Qed.

(** ** Persistence *)





(** ** Runs on the fixtures *)

(** C3 (counterexample). Three present conditions and no resolvable weights:
    each gets 33.33 and the values sum to 99.99, not to 100. *)
Lemma C3_counterexample_three_conditions :
  get_condition_impact (fixture_predictor None) fixture_three_conditions
  = ok [("Heart Failure", 3333 # 100); ("Diabetes", 3333 # 100); ("COPD", 3333 # 100)]%Q /\
  (Qsum (map snd [("Heart Failure", 3333 # 100); ("Diabetes", 3333 # 100);
                  ("COPD", 3333 # 100)]%Q) == 9999 # 100)%Q /\
  ~ (Qsum (map snd [("Heart Failure", 3333 # 100); ("Diabetes", 3333 # 100);
                    ("COPD", 3333 # 100)]%Q) == 100)%Q.
Proof.
  split; [vm_compute; reflexivity|]. split; [reflexivity|].
  vm_compute. discriminate.
Qed.

Lemma C3_fallback_uniform_witness :
  patient_conditions_of fixture_two_conditions = ["sp_chf"; "sp_diabetes"] /\
  exists impacts,
    get_condition_impact (fixture_predictor None) fixture_two_conditions = ok impacts /\
    impacts = [("Heart Failure", 5000 # 100); ("Diabetes", 5000 # 100)]%Q /\
    (Qsum (map snd impacts) == 100)%Q.
Proof.
  split; [reflexivity|].
  destruct (C3_fallback_uniform (fixture_predictor None) fixture_two_conditions
              [("30d_hospitalization_score", 1 # 2); ("mortality_score", 1 # 2)]%Q
              [("30d_hospitalization", fixture_estimator None);
               ("mortality", fixture_estimator None)]
              (fixture_estimator None) None)
    as (impacts & H1 & H2 & _ & _ & _ & _ & H7).
  - reflexivity.
  - reflexivity.
  - reflexivity.
  - reflexivity.
  - discriminate.
  - left. reflexivity.
  - exists impacts. split; [exact H1|]. split; [exact H2|].
    apply H7. reflexivity.
Defined.



Lemma C10_presence_requires_one_witness :
  get_condition_impact (fixture_predictor None) fixture_mixed_record
  = ok [("Diabetes", 10000 # 100)%Q] /\
  In "sp_chf" condition_fields /\
  ~ In "sp_chf" (patient_conditions_of fixture_mixed_record) /\
  dict_get [("Diabetes", 10000 # 100)%Q] (clean_name "sp_chf") = None.
Proof.
  assert (Hrun : get_condition_impact (fixture_predictor None) fixture_mixed_record
                 = ok [("Diabetes", 10000 # 100)%Q]) by reflexivity.
  assert (Hin : In "sp_chf" condition_fields) by (left; reflexivity).
  destruct (C10_presence_requires_one (fixture_predictor None) fixture_mixed_record
              [("Diabetes", 10000 # 100)%Q] "sp_chf" Hrun Hin)
    as (_ & _ & _ & _ & Habsent & Hnone & _).
  split; [exact Hrun|]. split; [exact Hin|].
  split; [apply Habsent; reflexivity|].
  apply Hnone, Habsent. reflexivity.
Defined.


(** * Further properties of the code *)

(** ** Reading and writing integers in decimal *)












Section DecimalFacts.
Variable parse_float : string -> option Q.
Variable str_of_float : Q -> string.



End DecimalFacts.



(** ** The enriched record *)

Lemma dict_set_keys_NoDup {V : Type} (d : dict V) (k : string) (v : V) :
  NoDup (dict_keys d) -> NoDup (dict_keys (dict_set d k v)).
Proof.
  induction d as [|[k0 v0] r IH]; simpl; intros ND.
  - constructor; [intros []|constructor].
  - inversion ND as [|? ? Hk0 ND']; subst.
    destruct (String.eqb k k0) eqn:E; simpl.
    + constructor; assumption.
    + constructor; [|apply IH; assumption].
      intros Hin. apply Hk0.
      destruct (in_dec string_dec k0 (dict_keys r)) as [i|n]; [exact i|].
      exfalso. apply dict_get_None_keys in n.
      assert (Hg : dict_get (dict_set r k v) k0 = None).
      { rewrite dict_get_set_other; [exact n|]. intros ->. rewrite String.eqb_refl in E.
        discriminate. }
      apply dict_get_None_keys in Hg. contradiction.
Qed.


(** Copying a dictionary entry by entry into an empty one gives it back. *)
Lemma dict_update_nil_id {V : Type} (d : dict V) :
  NoDup (dict_keys d) -> dict_update [] d = d.
Proof.
  intros ND. unfold dict_update.
  rewrite (fold_set_fresh fst snd (fun _ => true) d []).
  - simpl. clear ND. induction d as [|[k v] r IH]; simpl; [reflexivity|]. f_equal. exact IH.
  - exact ND.
  - reflexivity.
Qed.

Section EnrichedRecord.
Variable parse_float : string -> option Q.

Lemma passthrough_acc_get (form_data acc : dict PyVal) (k : string) :
  NoDup (dict_keys form_data) ->
  is_condition_key k = false ->
  dict_get
    (fold_left
       (fun pd kv =>
          if is_condition_key (fst kv) then pd
          else dict_set pd (fst kv) (coerce parse_float (snd kv)))
       form_data acc) k =
  match dict_get form_data k with
  | Some v => Some (coerce parse_float v)
  | None => dict_get acc k
  end.
Proof.
  intros ND Hk. revert acc.
  induction form_data as [|[k0 v0] r IH]; intros acc; [reflexivity|].
  inversion ND as [|? ? Hk0 ND']; subst.
  cbn [fold_left fst snd dict_get]. rewrite (IH ND').
  destruct (String.eqb k k0) eqn:E.
  - apply String.eqb_eq in E. subst k0.
    assert (Hr : dict_get r k = None) by (apply dict_get_None_keys; exact Hk0).
    rewrite Hr, Hk. apply dict_get_set_same.
  - destruct (dict_get r k); [reflexivity|].
    destruct (is_condition_key k0); [reflexivity|].
    apply dict_get_set_other. intros ->. rewrite String.eqb_refl in E. discriminate.
Qed.

(** A key that is not a condition key is passed through with its coerced
    value. *)
Lemma passthrough_get (form_data : dict PyVal) (k : string) :
  NoDup (dict_keys form_data) ->
  is_condition_key k = false ->
  dict_get (passthrough parse_float form_data) k
  = option_map (coerce parse_float) (dict_get form_data k).
Proof.
  intros ND Hk. unfold passthrough. rewrite passthrough_acc_get by assumption.
  destruct (dict_get form_data k); reflexivity.
Qed.

Lemma condition_fields_upper_are_condition_keys (k : string) :
  In k condition_fields_upper -> is_condition_key k = true.
Proof.
  unfold condition_fields_upper. cbn [In]. intros H.
  repeat (destruct H as [<-|H]; [reflexivity|]). contradiction.
Qed.


Lemma high_impact_sum (form_data pd : dict PyVal) :
  py_sum (VInt 0)
    (map (fun cond => dict_get_default (set_condition_flags form_data pd) cond (VInt 0))
       high_impact_list)
  = ok (VInt (count_present form_data high_impact_list)).
Proof.
  unfold high_impact_list, count_present. cbn [map]. unfold dict_get_default.
  rewrite !set_condition_flags_get by (unfold condition_fields_upper; cbn [In]; tauto).
  cbn [filter].
  destruct (dict_mem form_data "SP_CHF"); destruct (dict_mem form_data "SP_CHRNKIDN");
    destruct (dict_mem form_data "SP_CNCR"); destruct (dict_mem form_data "SP_COPD");
    reflexivity.
Qed.

(** Lines 153-174 as one case distinction: the four values read with a
    default must be numbers, and then the record is the passthrough with the
    condition flags and the seven derived fields. *)
Lemma build_features_eq (form_data : dict PyVal) :
  let pd0 := set_condition_flags form_data (passthrough parse_float form_data) in
  let rd := read_field parse_float form_data in
  build_features parse_float form_data =
  match num_of (rd "age"), num_of (rd "inpatient_admissions"),
        num_of (rd "outpatient_visits"), num_of (rd "total_medicare_costs") with
  | Some a, Some adm, Some vis, Some cost =>
      ok (dict_set (dict_set (dict_set (dict_set (dict_set (dict_set (dict_set pd0
            "age_65_74" (flag (Qle_bool (inject_Z 65) a && Qlt_bool a (inject_Z 75))))
            "age_75_84" (flag (Qle_bool (inject_Z 75) a && Qlt_bool a (inject_Z 85))))
            "age_85_plus" (flag (Qle_bool (inject_Z 85) a)))
            "high_impact_conditions" (VInt (count_present form_data high_impact_list)))
            "prior_hospitalization" (flag (Qlt_bool (inject_Z 0) adm)))
            "frequent_ed_user" (flag (Qlt_bool (inject_Z 10) vis)))
            "high_cost_patient" (flag (Qlt_bool (inject_Z 20000) cost)))
  | _, _, _, _ => raise TypeError
  end.
Proof.
  intros pd0 rd. unfold build_features. fold pd0.
  change (dict_get_default pd0 "age" (VInt 0)) with (rd "age").
  destruct (num_of (rd "age")) as [a|] eqn:Ea.
  2:{ unfold age_bands, py_between, py_le. rewrite Ea. reflexivity. }
  rewrite (age_bands_num _ _ Ea). cbn [bind ok fst snd].
  assert (Hsum : forall x y z,
    py_sum (VInt 0)
      (map (fun cond => dict_get_default
              (dict_set (dict_set (dict_set pd0 "age_65_74" x) "age_75_84" y) "age_85_plus" z)
              cond (VInt 0)) high_impact_list)
    = ok (VInt (count_present form_data high_impact_list))).
  { intros x y z. rewrite <- (high_impact_sum form_data (passthrough parse_float form_data)).
    fold pd0. f_equal. unfold high_impact_list. cbn [map]. unfold dict_get_default.
    repeat rewrite dict_get_set. reflexivity. }
  rewrite Hsum. cbn [bind ok].
  unfold dict_get_default at 1. repeat rewrite dict_get_set. cbn [String.eqb Ascii.eqb Bool.eqb].
  change (match dict_get pd0 "inpatient_admissions" with Some v => v | None => VInt 0 end)
    with (rd "inpatient_admissions").
  unfold py_gt at 1. unfold py_lt at 1. cbn [num_of].
  destruct (num_of (rd "inpatient_admissions")) as [adm|]; [|reflexivity].
  cbn [bind ok].
  unfold dict_get_default at 1. repeat rewrite dict_get_set. cbn [String.eqb Ascii.eqb Bool.eqb].
  change (match dict_get pd0 "outpatient_visits" with Some v => v | None => VInt 0 end)
    with (rd "outpatient_visits").
  unfold py_gt at 1. unfold py_lt at 1. cbn [num_of].
  destruct (num_of (rd "outpatient_visits")) as [vis|]; [|reflexivity].
  cbn [bind ok].
  unfold dict_get_default at 1. repeat rewrite dict_get_set. cbn [String.eqb Ascii.eqb Bool.eqb].
  change (match dict_get pd0 "total_medicare_costs" with Some v => v | None => VInt 0 end)
    with (rd "total_medicare_costs").
  unfold py_gt at 1. unfold py_lt at 1. cbn [num_of].
  destruct (num_of (rd "total_medicare_costs")) as [cost|]; reflexivity.
Qed.
End EnrichedRecord.


Lemma passthrough_NoDup (parse_float : string -> option Q) (form_data : dict PyVal) :
  NoDup (dict_keys (passthrough parse_float form_data)).
Proof.
  unfold passthrough.
  assert (G : forall acc, NoDup (dict_keys acc) ->
    NoDup (dict_keys (fold_left
       (fun pd kv => if is_condition_key (fst kv) then pd
                     else dict_set pd (fst kv) (coerce parse_float (snd kv)))
       form_data acc))).
  { induction form_data as [|[k v] r IH]; simpl; intros acc ND; [assumption|].
    apply IH. destruct (is_condition_key k); [assumption|].
    apply dict_set_keys_NoDup; assumption. }
  apply G. constructor.
Qed.

Lemma set_condition_flags_NoDup (form_data pd : dict PyVal) :
  NoDup (dict_keys pd) -> NoDup (dict_keys (set_condition_flags form_data pd)).
Proof.
  unfold set_condition_flags. generalize condition_fields_upper as l.
  intros l. revert pd. induction l as [|f l IH]; simpl; intros pd ND; [assumption|].
  apply IH, dict_set_keys_NoDup, ND.
Qed.

Lemma build_features_NoDup (parse_float : string -> option Q) (form_data pd : dict PyVal) :
  build_features parse_float form_data = ok pd -> NoDup (dict_keys pd).
Proof.
  intros H.
  destruct (build_features_inv parse_float form_data pd H)
    as (bands & hic & ph & fe & hc & _ & ->).
  do 7 apply dict_set_keys_NoDup.
  apply set_condition_flags_NoDup, passthrough_NoDup.
Qed.

(** In the enriched record, every form field whose name is neither a
    condition key nor one of the seven derived names holds the coerced form
    value, and is missing when the form does not have it. *)
Theorem enriched_record_passthrough (parse_float : string -> option Q)
    (form_data pd : dict PyVal) (k : string) :
  NoDup (dict_keys form_data) ->
  build_features parse_float form_data = ok pd ->
  is_condition_key k = false ->
  ~ In k derived_keys ->
  dict_get pd k = option_map (coerce parse_float) (dict_get form_data k).
Proof.
  intros ND H Hk Hd.
  destruct (build_features_inv parse_float form_data pd H)
    as (bands & hic & ph & fe & hc & _ & ->).
  unfold derived_keys in Hd. cbn [In] in Hd.
  repeat (rewrite dict_get_set_other; [|intros ->; tauto]).
  rewrite (set_condition_flags_other parse_float).
  - apply passthrough_get; assumption.
  - intros Hin. apply condition_fields_upper_are_condition_keys in Hin. congruence.
Qed.

Lemma count_present_bounds (form_data : dict PyVal) (keys : list string) :
  0 <= count_present form_data keys <= Z.of_nat (length keys).
Proof.
  unfold count_present. pose proof (filter_length_le (dict_mem form_data) keys). lia.
Qed.

(** [high_impact_conditions] counts, between 0 and 4, how many of the four
    upper-case keys SP_CHF, SP_CHRNKIDN, SP_CNCR and SP_COPD the form
    has. *)
Theorem high_impact_conditions_count (parse_float : string -> option Q)
    (form_data pd : dict PyVal) :
  build_features parse_float form_data = ok pd ->
  dict_get pd "high_impact_conditions"
  = Some (VInt (count_present form_data high_impact_list)) /\
  0 <= count_present form_data high_impact_list <= 4.
Proof.
  intros H. split; [|apply (count_present_bounds form_data high_impact_list)].
  pose proof (build_features_eq parse_float form_data) as E. cbv zeta in E.
  rewrite E in H. clear E.
  destruct (num_of (read_field parse_float form_data "age")); [|discriminate].
  destruct (num_of (read_field parse_float form_data "inpatient_admissions")); [|discriminate].
  destruct (num_of (read_field parse_float form_data "outpatient_visits")); [|discriminate].
  destruct (num_of (read_field parse_float form_data "total_medicare_costs")); [|discriminate].
  unfold ok in H. injection H as <-.
  repeat rewrite dict_get_set. reflexivity.
Qed.

(** The three utilisation flags are 0 or 1 and compare the value read (0
    when the field is missing) strictly with its threshold:
    [prior_hospitalization] is 1 iff [inpatient_admissions > 0],
    [frequent_ed_user] is 1 iff [outpatient_visits > 10], and
    [high_cost_patient] is 1 iff [total_medicare_costs > 20000]. *)
Theorem utilisation_flags (parse_float : string -> option Q)
    (form_data pd : dict PyVal) :
  build_features parse_float form_data = ok pd ->
  exists (adm vis cost : Q) (p f h : Z),
    num_of (read_field parse_float form_data "inpatient_admissions") = Some adm /\
    num_of (read_field parse_float form_data "outpatient_visits") = Some vis /\
    num_of (read_field parse_float form_data "total_medicare_costs") = Some cost /\
    dict_get pd "prior_hospitalization" = Some (VInt p) /\
    dict_get pd "frequent_ed_user" = Some (VInt f) /\
    dict_get pd "high_cost_patient" = Some (VInt h) /\
    (p = 1 <-> (0 < adm)%Q) /\ (p = 0 <-> (adm <= 0)%Q) /\
    (f = 1 <-> (inject_Z 10 < vis)%Q) /\ (f = 0 <-> (vis <= inject_Z 10)%Q) /\
    (h = 1 <-> (inject_Z 20000 < cost)%Q) /\ (h = 0 <-> (cost <= inject_Z 20000)%Q).
Proof.
  intros H.
  pose proof (build_features_eq parse_float form_data) as E. cbv zeta in E.
  rewrite E in H. clear E.
  destruct (num_of (read_field parse_float form_data "age")); [|discriminate].
  destruct (num_of (read_field parse_float form_data "inpatient_admissions")) as [adm|];
    [|discriminate].
  destruct (num_of (read_field parse_float form_data "outpatient_visits")) as [vis|];
    [|discriminate].
  destruct (num_of (read_field parse_float form_data "total_medicare_costs")) as [cost|];
    [|discriminate].
  unfold ok in H. injection H as <-.
  exists adm, vis, cost.
  exists (if Qlt_bool (inject_Z 0) adm then 1 else 0),
         (if Qlt_bool (inject_Z 10) vis then 1 else 0),
         (if Qlt_bool (inject_Z 20000) cost then 1 else 0).
  split; [reflexivity|]. split; [reflexivity|]. split; [reflexivity|].
  split; [repeat rewrite dict_get_set; reflexivity|].
  split; [repeat rewrite dict_get_set; reflexivity|].
  split; [repeat rewrite dict_get_set; reflexivity|].
  assert (E0 : (inject_Z 0 == 0)%Q) by reflexivity.
  destruct (Qlt_bool (inject_Z 0) adm) eqn:A;
    [apply Qlt_bool_true in A|apply Qlt_bool_false in A];
  (destruct (Qlt_bool (inject_Z 10) vis) eqn:B;
    [apply Qlt_bool_true in B|apply Qlt_bool_false in B]);
  (destruct (Qlt_bool (inject_Z 20000) cost) eqn:C;
    [apply Qlt_bool_true in C|apply Qlt_bool_false in C]);
  rewrite E0 in A;
  repeat split; intros; try lia; try lra; try assumption; try (exfalso; lra).
Qed.




Lemma assemble_get_other (processed_data : dict PyVal) (predictions : dict Q)
    (final_results : dict PyVal) (k : string) :
  NoDup (dict_keys processed_data) ->
  assemble processed_data predictions = ok final_results ->
  ~ In k computed_keys ->
  dict_get final_results k = dict_get processed_data k.
Proof.
  intros ND H Hk. unfold assemble in H.
  destruct (tier_info_at _) as [e|info]; [discriminate|].
  cbn [bind] in H. unfold ok in H. injection H as <-.
  unfold computed_keys in Hk. cbn [In] in Hk.
  repeat (rewrite dict_get_set_other; [|intros ->; tauto]).
  rewrite dict_update_nil_id by assumption. reflexivity.
Qed.

Lemma score_inv (parse_float : string -> option Q) (P : Predictor)
    (form_data final_results : dict PyVal) :
  score parse_float P form_data = ok final_results ->
  exists pd preds,
    build_features parse_float form_data = ok pd /\
    predict P (lower_keys pd) = ok preds /\
    assemble pd preds = ok final_results.
Proof.
  unfold score. intros H.
  destruct (build_features parse_float form_data) as [e|pd] eqn:Eb; [discriminate|].
  cbn [bind] in H.
  destruct (predict P (lower_keys pd)) as [e|preds] eqn:Ep; [discriminate|].
  cbn [bind] in H. exists pd, preds.
  split; [reflexivity|]. split; [exact Ep|exact H].
Qed.

Lemma result_condition_keys (parse_float : string -> option Q) (P : Predictor)
    (form_data final_results : dict PyVal) :
  score parse_float P form_data = ok final_results ->
  (forall field, In field condition_fields_upper ->
     dict_get final_results field = Some (flag (dict_mem form_data field))) /\
  (forall k, is_condition_key k = true -> ~ In k condition_fields_upper ->
     dict_get final_results k = None).
Proof.
  intros H.
  destruct (score_inv parse_float P form_data final_results H) as (pd & preds & Hb & _ & Ha).
  pose proof (build_features_NoDup parse_float form_data pd Hb) as NDpd.
  split.
  - intros field Hf.
    rewrite (assemble_get_other pd preds final_results field NDpd Ha).
    + apply (build_features_condition_flag parse_float form_data pd field Hb Hf).
    + intros Hin. apply condition_fields_upper_are_condition_keys in Hf.
      unfold computed_keys in Hin. cbn [In] in Hin.
      repeat (destruct Hin as [<-|Hin]; [discriminate Hf|]). contradiction.
  - intros k Hk Hn.
    rewrite (assemble_get_other pd preds final_results k NDpd Ha).
    + destruct (build_features_inv parse_float form_data pd Hb)
        as (bands & hic & ph & fe & hc & _ & ->).
      repeat (rewrite dict_get_set_other; [|intros ->; discriminate Hk]).
      rewrite (set_condition_flags_other parse_float) by assumption.
      apply passthrough_drops. exact Hk.
    + intros Hin. unfold computed_keys in Hin. cbn [In] in Hin.
      repeat (destruct Hin as [<-|Hin]; [discriminate Hk|]). contradiction.
Qed.

(** What the result record of a successful scoring holds besides the
    computed and derived names: each other form field with its coerced
    value, each of the eleven upper-case condition codes as the membership
    of that exact key in the form, and no other key with the condition
    prefix. *)
Theorem result_record_fields (parse_float : string -> option Q) (P : Predictor)
    (form_data final_results : dict PyVal) :
  NoDup (dict_keys form_data) ->
  score parse_float P form_data = ok final_results ->
  (forall k, is_condition_key k = false -> ~ In k derived_keys -> ~ In k computed_keys ->
     dict_get final_results k = option_map (coerce parse_float) (dict_get form_data k)) /\
  (forall field, In field condition_fields_upper ->
     dict_get final_results field = Some (flag (dict_mem form_data field))) /\
  (forall k, is_condition_key k = true -> ~ In k condition_fields_upper ->
     dict_get final_results k = None).
Proof.
  intros ND H. split; [|exact (result_condition_keys parse_float P form_data final_results H)].
  destruct (score_inv parse_float P form_data final_results H) as (pd & preds & Hb & _ & Ha).
  pose proof (build_features_NoDup parse_float form_data pd Hb) as NDpd.
  intros k Hk Hd Hc.
  rewrite (assemble_get_other pd preds final_results k NDpd Ha Hc).
  destruct (build_features_inv parse_float form_data pd Hb)
    as (bands & hic & ph & fe & hc & _ & ->).
  unfold derived_keys in Hd. cbn [In] in Hd.
  repeat (rewrite dict_get_set_other; [|intros ->; tauto]).
  rewrite (set_condition_flags_other parse_float).
  - apply passthrough_get; assumption.
  - intros Hin. apply condition_fields_upper_are_condition_keys in Hin. congruence.
Qed.

Lemma NoDup_fixture_form_full : NoDup (dict_keys fixture_form_full).
Proof.
  cbn. repeat (constructor; [cbn; intros H; repeat (destruct H as [H|H]; [discriminate H|]);
                             exact H|]).
  constructor.
Qed.

Lemma enriched_record_passthrough_witness :
  build_features fixture_parse_float fixture_form_full = ok fixture_record_full /\
  dict_get fixture_record_full "outpatient_visits" = Some (VInt 10).
Proof.
  assert (Hrun : build_features fixture_parse_float fixture_form_full = ok fixture_record_full)
    by reflexivity.
  split; [exact Hrun|].
  rewrite (enriched_record_passthrough fixture_parse_float fixture_form_full
             fixture_record_full "outpatient_visits" NoDup_fixture_form_full Hrun).
  - reflexivity.
  - reflexivity.
  - cbn. intros H. repeat (destruct H as [H|H]; [discriminate H|]). exact H.
Defined.

Lemma high_impact_conditions_count_witness :
  build_features fixture_parse_float fixture_form_full = ok fixture_record_full /\
  dict_get fixture_record_full "high_impact_conditions" = Some (VInt 2).
Proof.
  assert (Hrun : build_features fixture_parse_float fixture_form_full = ok fixture_record_full)
    by reflexivity.
  split; [exact Hrun|].
  destruct (high_impact_conditions_count fixture_parse_float fixture_form_full
              fixture_record_full Hrun) as [H _].
  rewrite H. reflexivity.
Defined.

Lemma utilisation_flags_witness :
  build_features fixture_parse_float fixture_form_full = ok fixture_record_full /\
  dict_get fixture_record_full "prior_hospitalization" = Some (VInt 1) /\
  dict_get fixture_record_full "frequent_ed_user" = Some (VInt 0) /\
  dict_get fixture_record_full "high_cost_patient" = Some (VInt 1).
Proof.
  assert (Hrun : build_features fixture_parse_float fixture_form_full = ok fixture_record_full)
    by reflexivity.
  split; [exact Hrun|].
  destruct (utilisation_flags fixture_parse_float fixture_form_full fixture_record_full Hrun)
    as (adm & vis & cost & p & f & h & Ha & Hv & Hc & Hp & Hf & Hh & P1 & _ & _ & F0 & H1 & _).
  vm_compute in Ha, Hv, Hc.
  injection Ha as <-. injection Hv as <-. injection Hc as <-.
  assert (p = 1) as -> by (apply P1; reflexivity).
  assert (f = 0) as -> by (apply F0; unfold Qle; simpl; lia).
  assert (h = 1) as -> by (apply H1; reflexivity).
  auto.
Defined.


Lemma result_record_fields_witness :
  score fixture_parse_float (fixture_predictor None) fixture_form_full
  = ok fixture_result_full /\
  dict_get fixture_result_full "desynpuf_id" = Some (VStr "P1") /\
  dict_get fixture_result_full "SP_CHF" = Some (VInt 1) /\
  dict_get fixture_result_full "SP_DIABETES" = Some (VInt 0).
Proof.
  assert (Hrun : score fixture_parse_float (fixture_predictor None) fixture_form_full
                 = ok fixture_result_full) by reflexivity.
  destruct (result_record_fields fixture_parse_float (fixture_predictor None)
              fixture_form_full fixture_result_full NoDup_fixture_form_full Hrun)
    as (Hpass & Hflag & _).
  split; [exact Hrun|]. split; [|split].
  - rewrite Hpass; [reflexivity|reflexivity| |];
      cbn; intros H; repeat (destruct H as [H|H]; [discriminate H|]); exact H.
  - rewrite Hflag; [reflexivity|]. left. reflexivity.
  - rewrite Hflag; [reflexivity|]. right. left. reflexivity.
Defined.

(** ** Scores returned by predict *)

Lemma string_length_app (a b : string) :
  String.length (a ++ b) = (String.length a + String.length b)%nat.
Proof.
  induction a as [|c a IH]; simpl; [reflexivity|]. rewrite IH. reflexivity.
Qed.

Lemma string_app_inv_tail (a b s : string) : a ++ s = b ++ s -> a = b.
Proof.
  revert b. induction a as [|c a IH]; intros b H.
  - destruct b as [|c' b]; [reflexivity|].
    apply (f_equal String.length) in H. simpl in H.
    rewrite string_length_app in H. lia.
  - destruct b as [|c' b].
    + apply (f_equal String.length) in H. simpl in H.
      rewrite string_length_app in H. lia.
    + simpl in H. injection H as -> H. f_equal. apply IH. exact H.
Qed.

Lemma score_models_spec (ms : dict Estimator) (X_scaled : list Q) (acc preds : dict Q) :
  score_models ms X_scaled acc = ok preds ->
  (forall k, (forall name, In name (dict_keys ms) -> k <> name ++ "_score") ->
     dict_get preds k = dict_get acc k) /\
  (NoDup (dict_keys ms) ->
   forall name model, dict_get ms name = Some model ->
     exists q, predict_proba model X_scaled = ok q /\
               dict_get preds (name ++ "_score") = Some q) /\
  (forall k, dict_get preds k <> None ->
     dict_get acc k <> None \/ exists name, In name (dict_keys ms) /\ k = name ++ "_score").
Proof.
  revert acc. induction ms as [|[n0 m0] r IH]; intros acc H.
  - simpl in H. unfold ok in H. injection H as <-.
    split; [reflexivity|]. split; [intros _ name model Hget; discriminate Hget|].
    intros k Hk. left. exact Hk.
  - cbn [score_models] in H.
    destruct (predict_proba m0 X_scaled) as [e|q0] eqn:Eq; [discriminate|].
    cbn [bind] in H. destruct (IH _ H) as (Hother & Hmodels & Hkeys).
    split; [|split].
    + intros k Hk. rewrite Hother.
      * apply dict_get_set_other. apply Hk. left. reflexivity.
      * intros name Hin. apply Hk. right. exact Hin.
    + intros ND name model Hget. cbn [dict_keys map fst] in ND.
      inversion ND as [|? ? Hn0 ND']; subst.
      cbn [dict_get] in Hget. destruct (String.eqb name n0) eqn:E.
      * apply String.eqb_eq in E. subst name. injection Hget as <-.
        exists q0. split; [exact Eq|].
        rewrite Hother; [apply dict_get_set_same|].
        intros name Hin Heq. apply string_app_inv_tail in Heq. subst name. contradiction.
      * apply (Hmodels ND' name model Hget).
    + intros k Hk. destruct (Hkeys k Hk) as [Hacc|(name & Hin & ->)].
      * rewrite dict_get_set in Hacc.
        destruct (String.eqb k (n0 ++ "_score")) eqn:E.
        -- apply String.eqb_eq in E. right. exists n0. split; [left; reflexivity|exact E].
        -- left. exact Hacc.
      * right. exists name. split; [right; exact Hin|reflexivity].
Qed.

(** A successful [predict] has applied the transform to the normalised
    vector and stored, for every model of the bundle, its probability under
    the key [<model name>_score]; the result has no other key.  With
    unloaded models [predict] raises instead. *)
Theorem predict_scores (P : Predictor) (input_data : dict PyVal) (preds : dict Q) :
  predict P input_data = ok preds ->
  exists transform ms X_scaled,
    pipeline P = Some transform /\
    models P = Some ms /\
    transform (map (fun f => dict_get_default (lower_keys input_data) f (VInt 0))
                 (feature_columns P)) = ok X_scaled /\
    (NoDup (dict_keys ms) ->
     forall name model, dict_get ms name = Some model ->
       exists q, predict_proba model X_scaled = ok q /\
                 dict_get preds (name ++ "_score") = Some q) /\
    (forall k, dict_get preds k <> None ->
       exists name, In name (dict_keys ms) /\ k = name ++ "_score").
Proof.
  unfold predict, normalize. rewrite select_columns_normalize by apply incl_refl.
  unfold loaded_parts.
  destruct (pipeline P) as [transform|]; [|discriminate].
  destruct (models P) as [[|m ms]|]; [discriminate| |discriminate].
  cbn [bind ok fst snd].
  destruct (transform _) as [e|X_scaled] eqn:Et; [discriminate|].
  cbn [bind]. intros H.
  destruct (score_models_spec (m :: ms) X_scaled [] preds H) as (_ & Hmodels & Hkeys).
  exists transform, (m :: ms), X_scaled.
  split; [reflexivity|]. split; [reflexivity|]. split; [exact Et|].
  split; [exact Hmodels|].
  intros k Hk. destruct (Hkeys k Hk) as [Hnil|Hex]; [|exact Hex].
  simpl in Hnil. congruence.
Qed.

Lemma predict_scores_witness :
  predict (fixture_predictor None) fixture_two_conditions
  = ok [("30d_hospitalization_score", 1 # 2); ("mortality_score", 1 # 2)]%Q /\
  dict_get [("30d_hospitalization_score", 1 # 2); ("mortality_score", 1 # 2)]%Q
    ("mortality" ++ "_score") = Some (1 # 2)%Q.
Proof.
  assert (Hrun : predict (fixture_predictor None) fixture_two_conditions
          = ok [("30d_hospitalization_score", 1 # 2); ("mortality_score", 1 # 2)]%Q)
    by reflexivity.
  split; [exact Hrun|].
  destruct (predict_scores _ _ _ Hrun) as (t & ms & X & Ht & Hms & HX & Hmodels & _).
  cbn in Hms. injection Hms as <-.
  destruct (Hmodels) with (name := "mortality") (model := fixture_estimator None)
    as (q & Hq & Hget).
  - cbn. repeat (constructor; [cbn; intros H; repeat (destruct H as [H|H]; [discriminate H|]);
                               exact H|]).
    constructor.
  - reflexivity.
  - cbn in Hq. unfold ok in Hq. injection Hq as <-. exact Hget.
Defined.

(** ** When the impact map is empty *)

(** With unloaded models, [get_condition_impact] returns the empty map where
    [predict] raises.  Once the base prediction has succeeded, the map is
    non-empty exactly when the patient has a present condition, the bundle
    has a [mortality] model and reading its importances does not raise. *)
Theorem impact_map_nonempty_iff (P : Predictor) (patient_data : dict PyVal) :
  (not_loaded P = true ->
   get_condition_impact P patient_data = ok [] /\
   predict P patient_data = raise ModelsNotLoaded) /\
  (forall preds ms,
     predict P patient_data = ok preds ->
     models P = Some ms ->
     ((exists impacts, get_condition_impact P patient_data = ok impacts /\ impacts <> []) <->
      (patient_conditions_of patient_data <> [] /\
       exists model importances,
         dict_get ms "mortality" = Some model /\
         resolve_importances model = ok importances))).
Proof.
  split.
  - intros Hnl. split.
    + unfold get_condition_impact. rewrite Hnl. reflexivity.
    + unfold predict, loaded_parts. unfold not_loaded in Hnl.
      destruct (pipeline P); [|reflexivity].
      destruct (models P) as [[|m ms]|]; [reflexivity|discriminate|reflexivity].
  - intros preds ms Hp Hms. split.
    + intros (impacts & Hres & Hne).
      unfold get_condition_impact in Hres.
      rewrite (predict_ok_loaded P patient_data preds Hp), Hp, Hms in Hres.
      cbn [bind ok] in Hres.
      destruct (patient_conditions_of patient_data) as [|c0 pcs] eqn:E.
      { unfold ok in Hres. injection Hres as <-. contradiction. }
      split; [discriminate|].
      destruct (dict_get ms "mortality") as [model|] eqn:Em.
      2:{ unfold ok in Hres. injection Hres as <-. contradiction. }
      destruct (resolve_importances model) as [e|importances] eqn:Er; [discriminate|].
      exists model, importances. split; [reflexivity|exact Er].
    + intros (Hne & model & importances & Hm & Hr).
      rewrite (get_condition_impact_main P patient_data preds ms model importances)
        by assumption.
      eexists. split; [reflexivity|].
      unfold with_fallback.
      destruct (impacts_from_weights _ _ _) as [|e w]; [|discriminate].
      pose proof (fallback_impacts_map patient_data) as Hfb.
      destruct (patient_conditions_of patient_data) as [|c0 pcs]; [contradiction|].
      rewrite Hfb. discriminate.
Qed.

(** ** Impact values are percentages that add up to about 100 *)
















(** ** The patient tables: store, look up, delete *)




Lemma values_for_get (db_data : dict PyVal) (cols : list string) (col : string) :
  In col cols ->
  dict_get (values_for db_data cols) col = Some (dict_get_default db_data col VNone).
Proof.
  unfold values_for. induction cols as [|c cols IH]; intros H; [contradiction|].
  cbn [map dict_get]. destruct (String.eqb col c) eqn:E.
  - apply String.eqb_eq in E. subst. reflexivity.
  - apply IH. destruct H as [->|H]; [rewrite String.eqb_refl in E; discriminate|exact H].
Qed.

Section Tables.
Variable str_of_float : Q -> string.







Lemma upsert_analysis_unfold (patient_id : string) (db_data : dict PyVal)
    (table : list (dict PyVal)) :
  upsert_analysis str_of_float patient_id db_data table =
  if existsb (row_matches str_of_float patient_id) table
  then sql_update str_of_float patient_id (values_for db_data update_cols) table
  else (table ++ [values_for db_data columns])%list.
Proof. unfold upsert_analysis, update_cols. reflexivity. Qed.

End Tables.

Section TableTheorems.
Variable str_of_float : Q -> string.


Lemma store_ok_inv (all_data : dict PyVal) (db db' : Db) :
  store_prediction_results str_of_float all_data db = (db', ok tt) ->
  db_up db = true /\
  db' = mkDb true
          (if (truthy (dict_get_default (lower_keys all_data) "name" VNone)
               && negb (String.eqb (patient_id_of str_of_float all_data) ""))%bool
           then upsert_patient str_of_float (patient_id_of str_of_float all_data)
                  (dict_get_default (lower_keys all_data) "name" VNone) (patients db)
           else patients db)
          (upsert_analysis str_of_float (patient_id_of str_of_float all_data)
             (lower_keys all_data) (patient_analysis db)).
Proof.
  unfold store_prediction_results, patient_id_of.
  destruct (db_up db); cbn [negb]; [|discriminate].
  intros [= <-]. split; reflexivity.
Qed.



Lemma details_join_head (patient_id : string) (db : Db) :
  match hd_error (details_join str_of_float patient_id db) with
  | Some row =>
      exists pa name,
        In pa (patient_analysis db) /\
        row_matches str_of_float patient_id pa = true /\
        row = details_row pa name
  | None => forall pa, In pa (patient_analysis db) ->
              row_matches str_of_float patient_id pa = false
  end.
Proof.
  unfold details_join.
  destruct (filter (row_matches str_of_float patient_id) (patient_analysis db))
    as [|pa rest] eqn:E.
  - cbn. intros pa Hin.
    destruct (row_matches str_of_float patient_id pa) eqn:Em; [|reflexivity].
    assert (Hf : In pa (filter (row_matches str_of_float patient_id) (patient_analysis db)))
      by (apply filter_In; auto).
    rewrite E in Hf. contradiction.
  - assert (Hpa : In pa (patient_analysis db) /\
                  row_matches str_of_float patient_id pa = true).
    { apply filter_In. rewrite E. left. reflexivity. }
    cbn [flat_map].
    destruct (filter (row_matches str_of_float patient_id) (patients db)) as [|p ps];
      cbn [map app hd_error]; eexists pa, _; (split; [apply Hpa|split; [apply Hpa|reflexivity]]).
Qed.





(** A record without [desynpuf_id] is filed under the text [None]: unless a
    row carries that text as its id, the record is appended as a new row
    whose id is NULL, which no id matches, so the next store of the same
    record appends again. *)
Theorem store_without_id (all_data : dict PyVal) (db db' : Db) :
  store_prediction_results str_of_float all_data db = (db', ok tt) ->
  dict_get_default (lower_keys all_data) "desynpuf_id" VNone = VNone ->
  existsb (row_matches str_of_float "None") (patient_analysis db) = false ->
  patient_id_of str_of_float all_data = "None" /\
  exists row,
    patient_analysis db' = (patient_analysis db ++ [row])%list /\
    (forall patient_id, row_matches str_of_float patient_id row = false) /\
    existsb (row_matches str_of_float "None") (patient_analysis db') = false.
Proof.
  intros Hstore Hv Hex.
  destruct (store_ok_inv all_data db db' Hstore) as [Hup ->].
  assert (Hid : patient_id_of str_of_float all_data = "None").
  { unfold patient_id_of. rewrite Hv. reflexivity. }
  split; [exact Hid|].
  cbn [patient_analysis]. rewrite Hid, upsert_analysis_unfold, Hex.
  exists (values_for (lower_keys all_data) columns).
  assert (Hrow : forall patient_id,
            row_matches str_of_float patient_id (values_for (lower_keys all_data) columns)
            = false).
  { intros patient_id. unfold row_matches.
    rewrite values_for_get by (left; reflexivity). rewrite Hv. reflexivity. }
  split; [reflexivity|]. split; [exact Hrow|].
  rewrite existsb_app, Hex. cbn [existsb]. rewrite Hrow. reflexivity.
Qed.

(** Deleting a patient removes exactly the rows of both tables whose id
    matches and keeps all others; afterwards the patient is not found, and
    deleting again changes nothing.  When no connection can be opened the
    function answers [False] and the tables are untouched. *)
Theorem delete_patient_spec (patient_id : string) (db : Db) :
  (db_up db = false -> delete_patient str_of_float patient_id db = (db, false)) /\
  (db_up db = true ->
   exists db',
     delete_patient str_of_float patient_id db = (db', true) /\
     (forall row, In row (patient_analysis db') <->
        In row (patient_analysis db) /\ row_matches str_of_float patient_id row = false) /\
     (forall row, In row (patients db') <->
        In row (patients db) /\ row_matches str_of_float patient_id row = false) /\
     get_patient_details str_of_float patient_id db' = ok None /\
     delete_patient str_of_float patient_id db' = (db', true)).
Proof.
  unfold delete_patient. split; intros Hup; rewrite Hup; cbn [negb]; [reflexivity|].
  eexists. split; [reflexivity|]. cbn [patient_analysis patients db_up negb].
  assert (Hfilter : forall t row,
            In row (sql_delete str_of_float patient_id t) <->
            In row t /\ row_matches str_of_float patient_id row = false).
  { intros t row. unfold sql_delete. rewrite filter_In, negb_true_iff. reflexivity. }
  assert (Hidem : forall t,
            sql_delete str_of_float patient_id (sql_delete str_of_float patient_id t)
            = sql_delete str_of_float patient_id t).
  { intros t. unfold sql_delete. induction t as [|row t IH]; [reflexivity|].
    cbn [filter]. destruct (row_matches str_of_float patient_id row) eqn:E; cbn [negb filter].
    - exact IH.
    - rewrite E. cbn [negb]. rewrite IH. reflexivity. }
  split; [apply Hfilter|]. split; [apply Hfilter|]. split.
  - unfold get_patient_details. cbn [db_up negb].
    pose proof (details_join_head patient_id
                  (mkDb true (sql_delete str_of_float patient_id (patients db))
                     (sql_delete str_of_float patient_id (patient_analysis db)))) as Hhd.
    destruct (hd_error _) as [row|]; [|reflexivity].
    destruct Hhd as (pa & name & Hin & Hm & _). cbn [patient_analysis] in Hin.
    apply Hfilter in Hin as [_ Hin]. congruence.
  - rewrite !Hidem. reflexivity.
Qed.
End TableTheorems.






Lemma store_without_id_witness :
  dict_get_default (lower_keys fixture_anonymous) "desynpuf_id" VNone = VNone /\
  exists db' row,
    store_prediction_results fixture_str_of_float fixture_anonymous fixture_db = (db', ok tt) /\
    patient_analysis db' = [row] /\
    get_patient_details fixture_str_of_float "None" db' = ok None.
Proof.
  split; [reflexivity|].
  set (db' := fst (store_prediction_results fixture_str_of_float fixture_anonymous fixture_db)).
  assert (Hrun : store_prediction_results fixture_str_of_float fixture_anonymous fixture_db
                 = (db', ok tt)) by reflexivity.
  destruct (store_without_id fixture_str_of_float fixture_anonymous fixture_db db' Hrun)
    as (_ & row & Hrows & _ & _); [reflexivity|reflexivity|].
  exists db', row. split; [exact Hrun|]. split; [exact Hrows|]. reflexivity.
Defined.

(** ** Pagination of the patient list (app.py, index) *)

(** For a non-negative number of records the page count is at least 1 and is
    the number of records divided by ten, rounded up; the pages 1 to
    [total_pages] start at offsets 0, 10, 20, ..., each of them starts
    before the last record, and every record lies on exactly one of
    them.  A page number below 1 gives a negative offset. *)
Theorem pagination_covers_records (total_records : Z) :
  0 <= total_records ->
  1 <= total_pages_of total_records /\
  (0 < total_records ->
   (total_pages_of total_records - 1) * index_limit < total_records
   <= total_pages_of total_records * index_limit) /\
  (forall page, 1 <= page <= total_pages_of total_records ->
     0 <= index_offset page /\ (0 < total_records -> index_offset page < total_records)) /\
  (forall i, 0 <= i < total_records ->
     exists page,
       1 <= page <= total_pages_of total_records /\
       index_offset page <= i < index_offset page + index_limit /\
       forall page', index_offset page' <= i < index_offset page' + index_limit ->
                     page' = page) /\
  (forall page, page <= 0 -> index_offset page < 0).
Proof.
  intros Hnn. unfold total_pages_of, index_offset, index_limit.
  destruct (0 <? total_records) eqn:E.
  - apply Z.ltb_lt in E.
    pose proof (Z.div_mod (total_records + 10 - 1) 10 ltac:(lia)) as Hdm.
    pose proof (Z.mod_pos_bound (total_records + 10 - 1) 10 ltac:(lia)) as Hmod.
    set (q := (total_records + 10 - 1) / 10) in *.
    split; [lia|]. split; [intros _; lia|]. split; [intros page Hp; lia|].
    split; [|intros page Hp; lia].
    intros i Hi.
    pose proof (Z.div_mod i 10 ltac:(lia)) as Hdi.
    pose proof (Z.mod_pos_bound i 10 ltac:(lia)) as Hmi.
    exists (i / 10 + 1). split; [lia|]. split; [lia|]. intros page' Hp'. lia.
  - apply Z.ltb_ge in E. assert (total_records = 0) by lia. subst.
    split; [lia|]. split; [lia|]. split; [intros page Hp; lia|].
    split; [intros i Hi; lia|intros page Hp; lia].
Qed.

Lemma pagination_covers_records_witness :
  0 <= 25 /\
  1 <= total_pages_of 25 /\
  (forall page, 1 <= page <= total_pages_of 25 ->
     0 <= index_offset page /\ (0 < 25 -> index_offset page < 25)) /\
  (forall i, 0 <= i < 25 ->
     exists page, 1 <= page <= total_pages_of 25 /\
                  index_offset page <= i < index_offset page + index_limit).
Proof.
  split; [lia|].
  destruct (pagination_covers_records 25) as (H1 & _ & H3 & H4 & _); [lia|].
  split; [exact H1|]. split; [exact H3|].
  intros i Hi. destruct (H4 i Hi) as (page & Hp & Hin & _).
  exists page. split; [exact Hp|exact Hin].
Defined.

(** ** The queries of get_patient_list *)

Ltac split_age_range age_range :=
  unfold age_range_clause, nonempty;
  destruct (String.eqb age_range "");
  destruct (String.eqb age_range "18-30");
  destruct (String.eqb age_range "31-50");
  destruct (String.eqb age_range "51-70");
  destruct (String.eqb age_range "70+");
  cbn [negb].

(** In both queries of get_patient_list the number of placeholders of the
    text equals the number of parameters passed with it, for every
    combination of filters. *)
Theorem patient_list_placeholders (search risk_tier age_range : string) (limit offset : Z) :
  count_placeholders (fst (patient_list_query search risk_tier age_range limit offset))
  = length (snd (patient_list_query search risk_tier age_range limit offset)) /\
  count_placeholders (fst (patient_count_query search risk_tier age_range))
  = length (snd (patient_count_query search risk_tier age_range)).
Proof.
  unfold patient_list_query, patient_count_query.
  destruct (nonempty search); destruct (nonempty risk_tier);
    destruct (negb (String.eqb risk_tier "")); cbn [andb fst snd];
    split_age_range age_range; split; vm_compute; reflexivity.
Qed.

(** The text of both queries depends on the search text and on the risk
    tier only through their being empty or not: what the user typed travels
    in the parameters, never in the SQL text. *)
Theorem patient_list_text_independent (search search' risk_tier risk_tier' age_range : string)
    (limit offset limit' offset' : Z) :
  nonempty search = nonempty search' ->
  nonempty risk_tier = nonempty risk_tier' ->
  fst (patient_list_query search risk_tier age_range limit offset)
  = fst (patient_list_query search' risk_tier' age_range limit' offset') /\
  fst (patient_count_query search risk_tier age_range)
  = fst (patient_count_query search' risk_tier' age_range).
Proof.
  intros Hs Hr. unfold patient_list_query, patient_count_query.
  assert (Hr' : negb (String.eqb risk_tier "") = negb (String.eqb risk_tier' "")) by exact Hr.
  rewrite Hs, Hr, Hr'.
  destruct (nonempty search'); destruct (nonempty risk_tier');
    destruct (negb (String.eqb risk_tier' "")); split; reflexivity.
Qed.

Lemma patient_list_text_independent_witness :
  fst (patient_list_query "smith" "3" "70+" 10 0)
  = fst (patient_list_query "x' OR 1=1 --" "4" "70+" 10 20).
Proof.
  apply (patient_list_text_independent "smith" "x' OR 1=1 --" "3" "4" "70+" 10 0 10 20);
    reflexivity.
Defined.

(** The page query and the count query filter alike: they append the same
    filter text to their heads, the page query adds the ordering and the
    two paging placeholders, and its parameters are those of the count query
    followed by limit and offset.  An age range other than the four known
    ones adds no filter. *)
Theorem patient_queries_agree (search risk_tier age_range : string) (limit offset : Z) :
  (exists filter_text,
     fst (patient_list_query search risk_tier age_range limit offset)
     = base_query_head ++ filter_text ++ order_limit_clause /\
     fst (patient_count_query search risk_tier age_range)
     = count_query_head ++ filter_text) /\
  snd (patient_list_query search risk_tier age_range limit offset)
  = (snd (patient_count_query search risk_tier age_range) ++ [VInt limit; VInt offset])%list /\
  snd (patient_count_query search risk_tier age_range)
  = ((if nonempty search
      then [like_pattern search; like_pattern search; like_pattern search] else []) ++
     (if nonempty risk_tier then [VStr risk_tier] else []))%list /\
  (~ In age_range ["18-30"; "31-50"; "51-70"; "70+"] -> age_range_clause age_range = "").
Proof.
  split; [|split; [|split]].
  - exists ((if nonempty search then search_clause else "") ++
            (if nonempty risk_tier then risk_tier_clause else "") ++
            age_range_clause age_range).
    unfold patient_list_query, patient_count_query.
    assert (Hr : negb (String.eqb risk_tier "") = nonempty risk_tier) by reflexivity.
    rewrite Hr.
    destruct (nonempty search); destruct (nonempty risk_tier); cbn [andb fst snd];
      split_age_range age_range; split; vm_compute; reflexivity.
  - unfold patient_list_query, patient_count_query.
    destruct (nonempty search); destruct (nonempty risk_tier);
      destruct (negb (String.eqb risk_tier "")); reflexivity.
  - unfold patient_count_query.
    assert (Hr : negb (String.eqb risk_tier "") = nonempty risk_tier) by reflexivity.
    rewrite Hr.
    destruct (nonempty search); destruct (nonempty risk_tier); reflexivity.
  - intros Hn. cbn [In] in Hn. unfold age_range_clause.
    destruct (nonempty age_range); [|reflexivity].
    destruct (String.eqb age_range "18-30") eqn:E1;
      [apply String.eqb_eq in E1; subst; tauto|].
    destruct (String.eqb age_range "31-50") eqn:E2;
      [apply String.eqb_eq in E2; subst; tauto|].
    destruct (String.eqb age_range "51-70") eqn:E3;
      [apply String.eqb_eq in E3; subst; tauto|].
    destruct (String.eqb age_range "70+") eqn:E4;
      [apply String.eqb_eq in E4; subst; tauto|].
    reflexivity.
Qed.

(** ** Formatting a row of the patient list *)

Lemma rstrip_split (chars s : string) :
  exists t, s = rstrip chars s ++ t /\
            (forall c, In c (list_ascii_of_string t) -> mem_char c chars = true).
Proof.
  induction s as [|c r (t & Hs & Ht)].
  - exists "". split; [reflexivity|intros c []].
  - cbn [rstrip]. destruct (rstrip chars r) as [|c' r'] eqn:E.
    + destruct (mem_char c chars) eqn:Ec.
      * exists (String c t). split; [simpl in Hs |- *; congruence|].
        intros x [<-|Hx]; [exact Ec|apply Ht; exact Hx].
      * exists t. split; [simpl in Hs |- *; congruence|exact Ht].
    + exists t. split; [simpl in Hs |- *; congruence|exact Ht].
Qed.

Lemma rstrip_end (chars s : string) :
  forall body c, rstrip chars s = body ++ String c "" -> mem_char c chars = false.
Proof.
  induction s as [|a r IH]; intros body c H.
  - destruct body; discriminate H.
  - cbn [rstrip] in H. destruct (rstrip chars r) as [|c' r'] eqn:E.
    + destruct (mem_char a chars) eqn:Ea.
      * destruct body; discriminate H.
      * destruct body as [|b body].
        -- simpl in H. injection H as <-. exact Ea.
        -- simpl in H. injection H as _ H. destruct body; discriminate H.
    + destruct body as [|b body].
      * simpl in H. discriminate H.
      * simpl in H. injection H as _ H. apply (IH body c). exact H.
Qed.

(** The conditions text shown for a row is the column text with its trailing
    commas and blanks removed and nothing else: it is a prefix of the column
    text, what is cut off consists of commas and blanks only, and what is
    left does not end with a comma or a blank.  An empty or NULL column is
    shown as [No conditions]. *)
Theorem conditions_display_strips_separators (row : PatientRow) :
  match row_conditions row with
  | None => conditions_display row = "No conditions"
  | Some s =>
      if nonempty s
      then (exists t, s = conditions_display row ++ t /\
              forall c, In c (list_ascii_of_string t) -> c = ","%char \/ c = " "%char) /\
           (forall body c, conditions_display row = body ++ String c "" ->
              c <> ","%char /\ c <> " "%char)
      else conditions_display row = "No conditions"
  end.
Proof.
  unfold conditions_display. destruct (row_conditions row) as [s|]; [|reflexivity].
  destruct (nonempty s); [|reflexivity].
  split.
  - destruct (rstrip_split ", " s) as (t & Hs & Ht). exists t. split; [exact Hs|].
    intros c Hc. specialize (Ht c Hc). unfold mem_char in Ht. cbn in Ht.
    destruct (Ascii.eqb c ",") eqn:E1; [apply Ascii.eqb_eq in E1; auto|].
    destruct (Ascii.eqb c " ") eqn:E2; [apply Ascii.eqb_eq in E2; auto|].
    cbn in Ht. discriminate Ht.
  - intros body c H. pose proof (rstrip_end ", " s body c H) as Hc.
    split; intros ->; discriminate Hc.
Qed.

(** For every combination of the five condition flags, the text the page
    query builds with CONCAT is shown as the labels of the set flags
    separated by a comma and a blank, and as [No conditions] when none is
    set. *)
Theorem conditions_display_of_concat (chf diabetes copd ischmcht depressn : bool)
    (id name age tier : PyVal) :
  conditions_display
    (mkPatientRow id name age tier
       (Some (conditions_concat chf diabetes copd ischmcht depressn)))
  = match map snd (filter fst [(chf, "CHF"); (diabetes, "Diabetes"); (copd, "COPD");
                               (ischmcht, "Ischemic Heart"); (depressn, "Depression")]) with
    | [] => "No conditions"
    | labels => join_with ", " labels
    end.
Proof.
  destruct chf; destruct diabetes; destruct copd; destruct ischmcht; destruct depressn;
    reflexivity.
Qed.


(** ** The filter of the dashboard queries (app.py, api_dashboard_data) *)


(** ** From the upload to the condition analysis *)













Section UploadThenAnalysis.
Variable parse_float : string -> option Q.
Variable str_of_float : Q -> string.



End UploadThenAnalysis.


